(** * The /predict-stats relay of server.js: normaliser, reason heuristic,
      response shaping and error envelope.

    The development follows src/server.js (the handler registered with
    [app.post('/predict-stats', ...)]).  JavaScript values are embedded as
    a small inductive type together with the coercions the handler relies
    on ([||], [!== undefined], [+], [/], [<], [>], [String], [Math.round]).

    Number model.  A JavaScript number is an integer ([Int z], standing for
    a double that holds the integer [z] exactly) or [NaN].  Fractional
    numbers, infinities and the sign of zero are not represented; the one
    quotient the handler forms, [(...) / 6], is kept as an exact rational
    until [Math.round] turns it back into an integer.  Sums are exact here,
    as they are in doubles up to 2^53; statements about computed sums
    bound their operands.

    Text model.  A text is the sequence of its UTF-8 bytes. *)

From Stdlib Require Import ZArith QArith Qround String Ascii List Bool Lia.
From Stdlib Require Import DecimalString DecimalZ.
From stdpp Require Import base option gmap strings.

Local Open Scope string_scope.
Local Open Scope Z_scope.

(** ** Values *)

Inductive num : Type :=
| NaN
| Int (z : Z).

(** [VObj prim] is a value that is not a primitive (a JSON object or array
    found in a request or response body).  The handler never reads inside
    such a value; it only coerces it, so the value is represented by the
    outcome of its conversion to a primitive: [Some s] when the conversion
    gives the string [s] (for instance "[object Object]"), [None] when the
    conversion raises a TypeError (for instance an object that carries an
    own, non-callable [toString] entry). *)
Inductive value : Type :=
| VUndefined
| VNull
| VBool (b : bool)
| VNum (n : num)
| VStr (s : string)
| VObj (prim : option string).

(** A parsed JSON body: an object with named entries, or anything else (a
    primitive, or an array, which has none of the names the handler reads). *)
Inductive document : Type :=
| DObject (fields : gmap string value)
| DValue (v : value).

(** ** Thrown errors and the error monad *)

(** The response object of the HTTP client: what a resolved call returns
    and what a failed call attaches to the error it throws. *)
Record axios_response : Type := {
  status : Z;
  data : document
}.

(** The error object seen by a [catch] clause: [error.response],
    [error.request] (only its truthiness is read) and [error.message]. *)
Record error : Type := {
  response : option axios_response;
  request : bool;
  message : string
}.

Definition TypeError (msg : string) : error :=
  {| response := None; request := false; message := msg |}.

Inductive Res (A : Type) : Type :=
| Ok (a : A)
| Throw (e : error).
Arguments Ok {A} a.
Arguments Throw {A} e.

#[global] Instance Res_ret : MRet Res := fun A a => Ok a.
#[global] Instance Res_bind : MBind Res := fun A B f m =>
  match m with
  | Ok a => f a
  | Throw e => Throw e
  end.

#[global] Instance Res_fmap : FMap Res := fun A B f m =>
  match m with
  | Ok a => Ok (f a)
  | Throw e => Throw e
  end.

(** [try { body } catch (e) { handler e }] *)
Definition try_catch {A} (body : Res A) (handler : error -> A) : A :=
  match body with
  | Ok a => a
  | Throw e => handler e
  end.

(** ** Coercions *)

Definition truthy (v : value) : bool :=
  match v with
  | VUndefined | VNull => false
  | VBool b => b
  | VNum NaN => false
  | VNum (Int z) => negb (z =? 0)
  | VStr EmptyString => false
  | VStr (String _ _) => true
  | VObj _ => true
  end.

(** [a || b] *)
Definition js_or (a b : value) : value := if truthy a then a else b.

(** [v !== undefined] *)
Definition defined (v : value) : bool :=
  match v with
  | VUndefined => false
  | _ => true
  end.

(** ToPrimitive; both hints give the same outcome on the values of this
    model. *)
Definition to_primitive (v : value) : Res value :=
  match v with
  | VObj (Some s) => Ok (VStr s)
  | VObj None => Throw (TypeError "Cannot convert object to primitive value")
  | _ => Ok v
  end.

(** *** White space and [trim]

    A text is the sequence of its UTF-8 bytes.  [white_space] lists the
    encodings of the characters that [trim] and the conversion of a text
    to a number strip: TAB, LF, VT, FF, CR, SP, U+00A0, U+1680, U+2000 to
    U+200A, U+2028, U+2029, U+202F, U+205F, U+3000 and U+FEFF. *)
Definition white_space : list (list ascii) :=
  List.map (List.map ascii_of_N)
    [ [9]; [10]; [11]; [12]; [13]; [32];
      [194; 160];
      [225; 154; 128];
      [226; 128; 128]; [226; 128; 129]; [226; 128; 130]; [226; 128; 131];
      [226; 128; 132]; [226; 128; 133]; [226; 128; 134]; [226; 128; 135];
      [226; 128; 136]; [226; 128; 137]; [226; 128; 138];
      [226; 128; 168]; [226; 128; 169];
      [226; 128; 175];
      [226; 129; 159];
      [227; 128; 128];
      [239; 187; 191] ]%N.

(** [cs] without the leading bytes [p], when it starts with them. *)
Fixpoint strip_prefix (p cs : list ascii) : option (list ascii) :=
  match p, cs with
  | [], _ => Some cs
  | a :: p', c :: cs' => if Ascii.eqb a c then strip_prefix p' cs' else None
  | _ :: _, [] => None
  end.

(** [cs] without one leading character among [chars]. *)
Fixpoint strip_one (chars : list (list ascii)) (cs : list ascii)
    : option (list ascii) :=
  match chars with
  | [] => None
  | p :: chars' =>
      match strip_prefix p cs with
      | Some rest => Some rest
      | None => strip_one chars' cs
      end
  end.

(** [cs] without its leading characters among [chars]; [fuel] bounds the
    number of characters removed. *)
Fixpoint strip_all (fuel : nat) (chars : list (list ascii))
    (cs : list ascii) : list ascii :=
  match fuel with
  | O => cs
  | S fuel' =>
      match strip_one chars cs with
      | Some rest => strip_all fuel' chars rest
      | None => cs
      end
  end.

Definition trim_start (cs : list ascii) : list ascii :=
  strip_all (length cs) white_space cs.

(** The same from the end: on the reversed text with reversed encodings. *)
Definition trim_end (cs : list ascii) : list ascii :=
  rev (strip_all (length cs) (List.map (@rev ascii) white_space) (rev cs)).

(** [s.trim()] *)
Definition trim (s : string) : string :=
  string_of_list_ascii (trim_end (trim_start (list_ascii_of_string s))).

(** *** From a text to a number

    The grammar of numeric texts: after trimming, the empty text, a
    decimal literal (optional sign, digits with an optional fraction and an
    optional exponent, or Infinity) or an unsigned binary, octal or
    hexadecimal integer literal.  The value is computed exactly. *)

(** What a text denotes. *)
Inductive literal : Type :=
| NotNumeric        (* not a numeric text: the number is NaN *)
| Exact (z : Z)     (* an integer of magnitude at most 2^53 *)
| Beyond.           (* a number outside the model: not an integer, of
                       magnitude above 2^53, or infinite *)

Definition digit_in (base : Z) (c : ascii) : option Z :=
  let n := Z.of_N (N_of_ascii c) in
  let d := if (48 <=? n) && (n <=? 57) then n - 48
           else if (97 <=? n) && (n <=? 102) then n - 87
           else if (65 <=? n) && (n <=? 70) then n - 55
           else base in
  if d <? base then Some d else None.

(** The leading digits of [cs] in [base], continuing the value [acc] and
    the count [count]: value, number of digits, rest of the text. *)
Fixpoint digits (base acc count : Z) (cs : list ascii)
    : Z * Z * list ascii :=
  match cs with
  | c :: cs' =>
      match digit_in base c with
      | Some d => digits base (base * acc + d) (count + 1) cs'
      | None => (acc, count, cs)
      end
  | [] => (acc, count, [])
  end.

Definition safe (z : Z) : literal :=
  if Z.abs z <=? 2 ^ 53 then Exact z else Beyond.

(** [m * 10 ^ e], for a mantissa written with [count] digits. *)
Definition scaled (m e count : Z) : literal :=
  if m =? 0 then Exact 0
  else if 0 <=? e then
    (if 16 <=? e then Beyond else safe (m * 10 ^ e))
  else if count <? - e then Beyond
  else if m mod 10 ^ (- e) =? 0 then safe (m / 10 ^ (- e))
  else Beyond.

(** An optional exponent part that ends the text. *)
Definition exponent (cs : list ascii) : option Z :=
  match cs with
  | [] => Some 0
  | c :: r =>
      if Ascii.eqb c "e" || Ascii.eqb c "E" then
        let '(negative, r') :=
          match r with
          | "+"%char :: r' => (false, r')
          | "-"%char :: r' => (true, r')
          | _ => (false, r)
          end in
        match digits 10 0 0 r' with
        | (v, n, []) =>
            if 0 <? n then Some (if negative then - v else v) else None
        | _ => None
        end
      else None
  end.

Definition unsigned_decimal (cs : list ascii) : literal :=
  if String.eqb (string_of_list_ascii cs) "Infinity" then Beyond
  else
    let '(i, ni, r1) := digits 10 0 0 cs in
    let '(m, nf, r2) :=
      match r1 with
      | "."%char :: r => digits 10 i 0 r
      | _ => (i, 0, r1)
      end in
    if ni + nf =? 0 then NotNumeric
    else match exponent r2 with
         | Some e => scaled m (e - nf) (ni + nf)
         | None => NotNumeric
         end.

(** [0b], [0o] and [0x] literals; [None] when the text has no such
    prefix. *)
Definition non_decimal (cs : list ascii) : option literal :=
  match cs with
  | "0"%char :: p :: r =>
      let base :=
        if Ascii.eqb p "x" || Ascii.eqb p "X" then Some 16
        else if Ascii.eqb p "o" || Ascii.eqb p "O" then Some 8
        else if Ascii.eqb p "b" || Ascii.eqb p "B" then Some 2
        else None in
      match base with
      | Some b =>
          Some (match digits b 0 0 r with
                | (v, n, []) => if 0 <? n then safe v else NotNumeric
                | _ => NotNumeric
                end)
      | None => None
      end
  | _ => None
  end.

Definition negate (l : literal) : literal :=
  match l with
  | Exact z => Exact (- z)
  | _ => l
  end.

Definition parse_number (s : string) : literal :=
  match list_ascii_of_string (trim s) with
  | [] => Exact 0
  | "+"%char :: r => unsigned_decimal r
  | "-"%char :: r => negate (unsigned_decimal r)
  | cs => match non_decimal cs with
          | Some l => l
          | None => unsigned_decimal cs
          end
  end.

(** The text denotes NaN or an integer that the model holds. *)
Definition representable (s : string) : bool :=
  match parse_number s with
  | Beyond => false
  | _ => true
  end.

(** StringToNumber.  On a text that is not [representable] the result
    [NaN] is a placeholder; statements that depend on the number a text
    denotes are made for representable texts. *)
Definition string_to_number (s : string) : num :=
  match parse_number s with
  | Exact z => Int z
  | NotNumeric | Beyond => NaN
  end.

(** ToNumber on a primitive. *)
Definition to_number (p : value) : num :=
  match p with
  | VUndefined => NaN
  | VNull => Int 0
  | VBool b => Int (if b then 1 else 0)
  | VNum n => n
  | VStr s => string_to_number s
  | VObj _ => NaN
  end.

Definition number_to_string (n : num) : string :=
  match n with
  | NaN => "NaN"
  | Int z => NilZero.string_of_int (Z.to_int z)
  end.

(** ToString on a primitive. *)
Definition to_string (p : value) : string :=
  match p with
  | VUndefined => "undefined"
  | VNull => "null"
  | VBool b => if b then "true" else "false"
  | VNum n => number_to_string n
  | VStr s => s
  | VObj _ => "[object Object]"
  end.

(** [String(v)] *)
Definition String_ (v : value) : Res string :=
  p ← to_primitive v; mret (to_string p).

Definition is_string (p : value) : bool :=
  match p with
  | VStr _ => true
  | _ => false
  end.

Definition num_add (a b : num) : num :=
  match a, b with
  | Int x, Int y => Int (x + y)
  | _, _ => NaN
  end.

(** [a + b]: concatenation as soon as one operand is a string after
    ToPrimitive, numeric addition otherwise. *)
Definition js_add (a b : value) : Res value :=
  pa ← to_primitive a;
  pb ← to_primitive b;
  if is_string pa || is_string pb
  then mret (VStr (String.append (to_string pa) (to_string pb)))
  else mret (VNum (num_add (to_number pa) (to_number pb))).

(** [a / d] for a positive integer literal [d]; [None] is NaN, [Some q]
    the exact quotient. *)
Definition js_div (a : value) (d : positive) : Res (option Q) :=
  pa ← to_primitive a;
  match to_number pa with
  | NaN => mret None
  | Int z => mret (Some (Qmake z d))
  end.

(** [Math.round]: nearest integer, a tie going to the larger one. *)
Definition Math_round (x : option Q) : value :=
  match x with
  | None => VNum NaN
  | Some q => VNum (Int (Qfloor (Qplus q (Qmake 1 2))))
  end.

Definition num_ltb (a b : num) : bool :=
  match a, b with
  | Int x, Int y => x <? y
  | _, _ => false
  end.

(** [a < b]: both operands to primitives (left first); two strings are
    compared as strings, anything else as numbers, a comparison that
    involves NaN being false. *)
Definition js_lt (a b : value) : Res bool :=
  pa ← to_primitive a;
  pb ← to_primitive b;
  match pa, pb with
  | VStr s, VStr t => mret (String.ltb s t)
  | _, _ => mret (num_ltb (to_number pa) (to_number pb))
  end.

(** [a > b] *)
Definition js_gt (a b : value) : Res bool :=
  pa ← to_primitive a;
  pb ← to_primitive b;
  match pa, pb with
  | VStr s, VStr t => mret (String.ltb t s)
  | _, _ => mret (num_ltb (to_number pb) (to_number pa))
  end.

(** [v === 0] *)
Definition is_zero (v : value) : bool :=
  match v with
  | VNum (Int 0) => true
  | _ => false
  end.

Definition lower_ascii (c : ascii) : ascii :=
  let n := N_of_ascii c in
  if ((65 <=? n) && (n <=? 90))%N then ascii_of_N (n + 32) else c.

Fixpoint toLowerCase (s : string) : string :=
  match s with
  | EmptyString => EmptyString
  | String c s' => String (lower_ascii c) (toLowerCase s')
  end.

(** [s.includes(sub)] *)
Fixpoint includes (s sub : string) : bool :=
  if String.prefix sub s then true
  else match s with
       | EmptyString => false
       | String _ s' => includes s' sub
       end.

(** Property read [o.k] on an object. *)
Definition prop (o : gmap string value) (k : string) : value :=
  default VUndefined (o !! k).

(** The TypeError of a property read on [undefined] or [null]. *)
Definition cannot_read (base k : string) : error :=
  TypeError
    (String.append "Cannot read properties of "
       (String.append base
          (String.append " (reading '" (String.append k "')")))).

(** Property read [d.k] on a body; reading from [undefined] or [null]
    throws, any other non-object has none of the names the handler asks
    for. *)
Definition get (d : document) (k : string) : Res value :=
  match d with
  | DObject o => mret (prop o k)
  | DValue VUndefined => Throw (cannot_read "undefined" k)
  | DValue VNull => Throw (cannot_read "null" k)
  | DValue _ => mret VUndefined
  end.

Definition doc_truthy (d : document) : bool :=
  match d with
  | DObject _ => true
  | DValue v => truthy v
  end.

(** ** The normaliser (server.js, the [mapped] object literal) *)

Record Mapped : Type := {
  age : value;
  weight_kg : value;
  potential : value;
  skill_moves : value;
  work_rate : value;
  body_type : value;
  pace : value;
  shooting : value;
  passing : value;
  defending : value;
  physic : value;
  player_traits : value
}.

Definition zero : value := VNum (Int 0).

(** [Math.round(((pace||0) + (shooting||0) + (passing||0) + (dribbling||0)
    + (defending||0) + (physic||0)) / 6) || 0] *)
Definition potential_estimate (playerData : gmap string value) : Res value :=
  s1 ← js_add (js_or (prop playerData "pace") zero)
              (js_or (prop playerData "shooting") zero);
  s2 ← js_add s1 (js_or (prop playerData "passing") zero);
  s3 ← js_add s2 (js_or (prop playerData "dribbling") zero);
  s4 ← js_add s3 (js_or (prop playerData "defending") zero);
  s5 ← js_add s4 (js_or (prop playerData "physic") zero);
  q ← js_div s5 6;
  mret (js_or (Math_round q) zero).

(** [playerData.k !== undefined ? playerData.k : d] *)
Definition or_default (playerData : gmap string value) (k : string)
    (d : value) : value :=
  if defined (prop playerData k) then prop playerData k else d.

(** The object literal [mapped] (server.js, lines 26-41).  Only the
    estimate of potential can fault, and it is evaluated in its place among
    fault-free fields, so it is bound first. *)
Definition normalize (playerData : gmap string value) : Res Mapped :=
  potential_v ←
    (if defined (prop playerData "potential")
     then mret (prop playerData "potential")
     else potential_estimate playerData);
  mret {|
    age := or_default playerData "age" zero;
    weight_kg :=
      or_default playerData "weight_kg" (js_or (prop playerData "weight") zero);
    potential := potential_v;
    skill_moves :=
      or_default playerData "skill_moves"
        (or_default playerData "dribbling" zero);
    work_rate := js_or (prop playerData "work_rate") (VStr "Unknown_Category");
    body_type := js_or (prop playerData "body_type") (VStr "Unknown_Category");
    pace := or_default playerData "pace" zero;
    shooting := or_default playerData "shooting" zero;
    passing := or_default playerData "passing" zero;
    defending := or_default playerData "defending" zero;
    physic := or_default playerData "physic" zero;
    player_traits := js_or (prop playerData "player_traits") (VStr EmptyString)
  |}.

(** The entries of [mapped] in the order of the object literal, as they are
    serialised for the outbound call. *)
Definition entries (m : Mapped) : list (string * value) :=
  [ ("age", age m); ("weight_kg", weight_kg m); ("potential", potential m);
    ("skill_moves", skill_moves m); ("work_rate", work_rate m);
    ("body_type", body_type m); ("pace", pace m); ("shooting", shooting m);
    ("passing", passing m); ("defending", defending m); ("physic", physic m);
    ("player_traits", player_traits m) ].

(** ** RawInput: a client record whose entries are strings or numbers *)

Inductive scalar : Type :=
| SNum (z : Z)
| SStr (s : string).

Definition of_scalar (x : scalar) : value :=
  match x with
  | SNum z => VNum (Int z)
  | SStr s => VStr s
  end.

Definition of_raw (raw : gmap string scalar) : gmap string value :=
  of_scalar <$> raw.

(** ** The reason heuristic (server.js, the inner [try] block) *)

Definition fallback : string :=
  "No single weak area detected; overall stats may be below model threshold".

(** [if (c) reasons.push(r)] *)
Definition push_if (c : Res bool) (r : string) (reasons : list string)
    : Res (list string) :=
  b ← c; mret (if (b : bool) then (reasons ++ [r])%list else reasons).

(** [v !== undefined && c] *)
Definition defined_and (v : value) (c : Res bool) : Res bool :=
  if defined v then c else mret false.

(** [mapped.body_type &&
     String(mapped.body_type).toLowerCase().includes('fat')] *)
Definition body_check (v : value) : Res bool :=
  if truthy v
  then s ← String_ v; mret (includes (toLowerCase s) "fat")
  else mret false.

Definition reasons_block (prediction : value) (mapped : Mapped)
    (reasons : list string) : Res (list string) :=
  if is_zero prediction then
    r1 ← push_if (defined_and (pace mapped)
                    (js_lt (pace mapped) (VNum (Int 70))))
                 "Low pace" reasons;
    r2 ← push_if (defined_and (shooting mapped)
                    (js_lt (shooting mapped) (VNum (Int 65))))
                 "Low shooting" r1;
    r3 ← push_if (defined_and (passing mapped)
                    (js_lt (passing mapped) (VNum (Int 65))))
                 "Low passing" r2;
    r4 ← push_if (defined_and (defending mapped)
                    (js_lt (defending mapped) (VNum (Int 60))))
                 "Low defending" r3;
    r5 ← push_if (defined_and (physic mapped)
                    (js_lt (physic mapped) (VNum (Int 65))))
                 "Low physicality" r4;
    r6 ← push_if (defined_and (potential mapped)
                    (js_lt (potential mapped) (VNum (Int 50))))
                 "Low potential" r5;
    r7 ← push_if (defined_and (skill_moves mapped)
                    (js_lt (skill_moves mapped) (VNum (Int 3))))
                 "Low skill moves" r6;
    r8 ← push_if (defined_and (age mapped)
                    (js_gt (age mapped) (VNum (Int 34))))
                 "Age may be high" r7;
    r9 ← push_if (body_check (body_type mapped))
                 "Body type may affect performance" r8;
    mret (if (Z.of_nat (length r9) =? 0) then (r9 ++ [fallback])%list else r9)
  else mret reasons.

(** [let reasons = []; try { ... } catch (e) { reasons = []; }] *)
Definition compute_reasons (prediction : value) (mapped : Mapped)
    : list string :=
  try_catch (reasons_block prediction mapped []) (fun _ => []).

(** ** The endpoint *)

Inductive body : Type :=
| Success (prediction message : value) (reasons : list string)
          (overall_calculated : value)
| Failure (error : value).

Record http_response : Type := {
  code : Z;
  payload : body
}.

Definition generic_error : string :=
  "Sorry, I'm having trouble thinking right now.".

(** The statements after the outbound call, up to [res.json]. *)
Definition on_success (mapped : Mapped) (apiResponse : axios_response)
    : Res http_response :=
  let pythonData :=
    if doc_truthy (data apiResponse) then data apiResponse else DObject ∅ in
  prediction ←
    (p ← get pythonData "prediction";
     if defined p then mret p
     else r ← get pythonData "response"; mret (js_or r VNull));
  message ← (m ← get pythonData "message"; mret (js_or m VNull));
  overall_calc ←
    (o ← get pythonData "overall_calculated";
     mret (if defined o then o else VNull));
  let reasons := compute_reasons prediction mapped in
  mret {| code := 200;
          payload := Success prediction message reasons overall_calc |}.

(** The outer [catch (error)] clause. *)
Definition on_error (error : error) : Res http_response :=
  errorMsg ←
    match response error with
    | Some r => e ← get (data r) "error"; mret (js_or e (VStr generic_error))
    | None => mret (VStr generic_error)
    end;
  mret {| code := 500; payload := Failure errorMsg |}.

(** The handler of POST /predict-stats.  [post] stands for
    [axios.post('http://127.0.0.1:5000/predict', mapped)]: it either
    resolves to a response or throws.  The result is the response written
    to the client; [Throw] means the handler itself rejected and nothing
    was written. *)
Definition predict_stats (post : Mapped -> Res axios_response)
    (playerData : gmap string value) : Res http_response :=
  match (mapped ← normalize playerData;
         apiResponse ← post mapped;
         on_success mapped apiResponse) with
  | Ok r => Ok r
  | Throw e => on_error e
  end.

(** ** Sample inputs *)

Definition all_defaults : Mapped := {|
  age := zero; weight_kg := zero; potential := zero; skill_moves := zero;
  work_rate := VStr "Unknown_Category"; body_type := VStr "Unknown_Category";
  pace := zero; shooting := zero; passing := zero; defending := zero;
  physic := zero; player_traits := VStr EmptyString
|}.

Definition six_stats : gmap string scalar :=
  <["pace" := SNum 80]> (<["shooting" := SNum 70]> (<["passing" := SNum 60]>
  (<["dribbling" := SNum 50]> (<["defending" := SNum 40]>
  (<["physic" := SNum 30]> ∅))))).


(** ** Classes of values *)

Definition primitive (v : value) : bool :=
  match v with
  | VObj _ => false
  | _ => true
  end.

(** What a RawInput entry turns into: a string or an integer. *)
Definition is_scalar (v : value) : bool :=
  match v with
  | VNum (Int _) | VStr _ => true
  | _ => false
  end.

(** ** The record fields, by name *)

Inductive field : Type :=
| Age | Weight_kg | Potential | Skill_moves | Work_rate | Body_type
| Pace | Shooting | Passing | Defending | Physic | Player_traits.

Definition name (f : field) : string :=
  match f with
  | Age => "age" | Weight_kg => "weight_kg" | Potential => "potential"
  | Skill_moves => "skill_moves" | Work_rate => "work_rate"
  | Body_type => "body_type" | Pace => "pace" | Shooting => "shooting"
  | Passing => "passing" | Defending => "defending" | Physic => "physic"
  | Player_traits => "player_traits"
  end.

Definition proj (f : field) (m : Mapped) : value :=
  match f with
  | Age => age m | Weight_kg => weight_kg m | Potential => potential m
  | Skill_moves => skill_moves m | Work_rate => work_rate m
  | Body_type => body_type m | Pace => pace m | Shooting => shooting m
  | Passing => passing m | Defending => defending m | Physic => physic m
  | Player_traits => player_traits m
  end.

(** The three fields the literal fills with [playerData.k || d]. *)
Definition or_filled (f : field) : bool :=
  match f with
  | Work_rate | Body_type | Player_traits => true
  | _ => false
  end.

(** ** The reason heuristic as the specification words it (section 4.2)

    [explainIneligibility] is written from the specification: a table of
    nine predicates with their catalog strings, filtered in table order,
    with the fallback when nothing fires.  It is compared with
    [compute_reasons], the embedding of the code. *)

(** [v < k] and [v > k] on a feature value. *)
Definition below (v : value) (k : Z) : bool := num_ltb (to_number v) (Int k).
Definition above (v : value) (k : Z) : bool := num_ltb (Int k) (to_number v).

(** The value, as text and case-insensitively, contains "fat". *)
Definition mentions_fat (v : value) : bool :=
  includes (toLowerCase (to_string v)) "fat".

Definition checks (f : Mapped) : list (bool * string) :=
  [ (below (pace f) 70, "Low pace");
    (below (shooting f) 65, "Low shooting");
    (below (passing f) 65, "Low passing");
    (below (defending f) 60, "Low defending");
    (below (physic f) 65, "Low physicality");
    (below (potential f) 50, "Low potential");
    (below (skill_moves f) 3, "Low skill moves");
    (above (age f) 34, "Age may be high");
    (mentions_fat (body_type f), "Body type may affect performance") ].

Definition catalog : list string :=
  [ "Low pace"; "Low shooting"; "Low passing"; "Low defending";
    "Low physicality"; "Low potential"; "Low skill moves"; "Age may be high";
    "Body type may affect performance" ].

Definition fired (f : Mapped) : list string :=
  List.map snd (List.filter fst (checks f)).

Definition explainIneligibility (f : Mapped) : list string :=
  match fired f with
  | [] => [fallback]
  | rs => rs
  end.

(** Every field holds a primitive (the typed record of the specification
    holds numbers and strings). *)
Definition features_primitive (f : Mapped) : Prop :=
  Forall (fun kv => primitive (snd kv) = true) (entries f).

Definition is_number (v : value) : bool :=
  match v with
  | VNum _ => true
  | _ => false
  end.

(** The fields that the heuristic compares with a threshold. *)
Definition compared (f : Mapped) : list value :=
  [ pace f; shooting f; passing f; defending f; physic f; potential f;
    skill_moves f; age f ].

(** The record of the specification: numbers in the compared fields,
    primitives elsewhere. *)
Definition features_typed (f : Mapped) : Prop :=
  features_primitive f
  /\ Forall (fun v => is_number v = true) (compared f).

Definition weak_everywhere : Mapped := {|
  age := VNum (Int 36); weight_kg := zero; potential := VNum (Int 40);
  skill_moves := VNum (Int 2); work_rate := VStr "Unknown_Category";
  body_type := VStr "Fat (normal/lean)"; pace := VNum (Int 60);
  shooting := VNum (Int 60); passing := VNum (Int 60);
  defending := VNum (Int 50); physic := VNum (Int 60);
  player_traits := VStr EmptyString
|}.

Definition strong_everywhere : Mapped := {|
  age := VNum (Int 25); weight_kg := zero; potential := VNum (Int 90);
  skill_moves := VNum (Int 5); work_rate := VStr "Unknown_Category";
  body_type := VStr "Lean"; pace := VNum (Int 90);
  shooting := VNum (Int 90); passing := VNum (Int 90);
  defending := VNum (Int 90); physic := VNum (Int 90);
  player_traits := VStr EmptyString
|}.

(** ** The default rules as the specification tables them (section 3) *)

Definition contributors : list string :=
  [ "pace"; "shooting"; "passing"; "dribbling"; "defending"; "physic" ].

(** A contributor of the average: the number given, 0 when missing. *)
Definition contribution (raw : gmap string scalar) (k : string) : Z :=
  match raw !! k with
  | Some (SNum z) => z
  | _ => 0
  end.

(** round(mean(pace, shooting, passing, dribbling, defending, physic)),
    a tie going up. *)
Definition round_mean (raw : gmap string scalar) : Z :=
  Qfloor (Qplus (Qmake (contribution raw "pace" + contribution raw "shooting"
                        + contribution raw "passing"
                        + contribution raw "dribbling"
                        + contribution raw "defending"
                        + contribution raw "physic") 6)
                (Qmake 1 2)).

Definition numeric_or_absent (raw : gmap string scalar) (k : string) : bool :=
  match raw !! k with
  | Some (SStr _) => false
  | _ => true
  end.

(** Every contributor of the average is a number or missing. *)
Definition numeric_contributors (raw : gmap string scalar) : Prop :=
  forallb (numeric_or_absent raw) contributors = true.

(** Every contributor is of magnitude at most 2^48: the five additions
    are then exact in doubles, and the quotient by 6 is rounded as the
    exact quotient is. *)
Definition bounded_contributors (raw : gmap string scalar) : Prop :=
  forallb (fun k => Z.abs (contribution raw k) <=? 2 ^ 48) contributors
  = true.

(** The rule of the table for a field that the RawInput does not carry. *)
Definition absent_rule (f : field) (raw : gmap string scalar) : value :=
  match f with
  | Weight_kg =>
      match raw !! "weight" with
      | Some x => if truthy (of_scalar x) then of_scalar x else zero
      | None => zero
      end
  | Potential => VNum (Int (round_mean raw))
  | Skill_moves =>
      match raw !! "dribbling" with
      | Some x => of_scalar x
      | None => zero
      end
  | Work_rate | Body_type => VStr "Unknown_Category"
  | Player_traits => VStr EmptyString
  | Age | Pace | Shooting | Passing | Defending | Physic => zero
  end.

(** ** The relayed fields as the specification words them (section 4.3) *)

(** The entry [k] of a service response, [undefined] when missing. *)
Definition read (d : document) (k : string) : value :=
  match d with
  | DObject o => prop o k
  | DValue _ => VUndefined
  end.

(** Pass-through with a null default for an absent field. *)
Definition pass_through (d : document) (k : string) : value :=
  if defined (read d k) then read d k else VNull.

(** prediction (the legacy response when prediction is absent), message
    and overall_calculated. *)
Definition relay_as_stated (d : document) : value * value * value :=
  (if defined (read d "prediction") then read d "prediction"
   else pass_through d "response",
   pass_through d "message",
   pass_through d "overall_calculated").

(** The success response the specification describes for features [m] and
    service response [d]. *)
Definition response_as_stated (m : Mapped) (d : document) : http_response :=
  let '(p, msg, o) := relay_as_stated d in
  {| code := 200; payload := Success p msg (compute_reasons p m) o |}.

(** Absent, null or truthy: a value that [v || null] hands on as
    [pass_through] does. *)
Definition survives_or_null (v : value) : bool :=
  match v with
  | VUndefined | VNull => true
  | _ => truthy v
  end.

(** ** Further sample inputs *)

Definition only_dribbling : gmap string scalar := {[ "dribbling" := SNum 4 ]}.

(** What [normalize] makes of [six_stats]. *)
Definition six_stats_mapped : Mapped := {|
  age := zero; weight_kg := zero; potential := VNum (Int 55);
  skill_moves := VNum (Int 50); work_rate := VStr "Unknown_Category";
  body_type := VStr "Unknown_Category"; pace := VNum (Int 80);
  shooting := VNum (Int 70); passing := VNum (Int 60);
  defending := VNum (Int 40); physic := VNum (Int 30);
  player_traits := VStr EmptyString
|}.

Definition dribbling_as_text : gmap string scalar :=
  <["dribbling" := SStr "50"]> six_stats.

Definition empty_age : gmap string scalar := {[ "age" := SStr EmptyString ]}.


Definition axios_ok (o : gmap string value) : axios_response :=
  {| status := 200; data := DObject o |}.

Definition empty_message : axios_response :=
  axios_ok {[ "prediction" := VNum (Int 1); "message" := VStr EmptyString ]}.

Definition full_answer : axios_response :=
  axios_ok (<["prediction" := VNum (Int 1)]>
           (<["message" := VStr "Player is Eligible to Play"]>
           {[ "overall_calculated" := VNum (Int 80) ]})).

Definition legacy_zero : axios_response :=
  axios_ok {[ "response" := VNum (Int 0) ]}.

Definition connection_refused : error :=
  {| response := None; request := true;
     message := "connect ECONNREFUSED 127.0.0.1:5000" |}.

(** A body whose [body_type] cannot be converted to a primitive. *)
Definition hostile_body_type : gmap string value :=
  <["potential" := VNum (Int 50)]> {[ "body_type" := VObj None ]}.

Definition says_ineligible : axios_response :=
  axios_ok {[ "prediction" := VNum (Int 0) ]}.

(** What [normalize] makes of [hostile_body_type]. *)
Definition hostile_mapped : Mapped := {|
  age := zero; weight_kg := zero; potential := VNum (Int 50);
  skill_moves := zero; work_rate := VStr "Unknown_Category";
  body_type := VObj None; pace := zero; shooting := zero; passing := zero;
  defending := zero; physic := zero; player_traits := VStr EmptyString
|}.

(** * Further parts of the repository *)

(** ** The record seen again as an object

    [mapped] is handed to the HTTP client as a plain object; [to_object]
    is that object. *)
Definition to_object (m : Mapped) : gmap string value :=
  list_to_map (entries m).

(** A body in which one contributor of the average cannot be converted,
    and no potential is given. *)
Definition hostile_pace : gmap string value :=
  {[ "pace" := VObj None ]}.

(** A failed call whose response body carries its own error text. *)
Definition service_says (v : value) : error :=
  {| response := Some {| status := 400;
                         data := DObject {[ "error" := v ]} |};
     request := true;
     message := "Request failed with status code 400" |}.

(** A failed call whose response body is the JSON value null. *)
Definition null_error_body : error :=
  {| response := Some {| status := 500; data := DValue VNull |};
     request := true;
     message := "Request failed with status code 500" |}.

(** The TypeError raised by a failed conversion to a primitive. *)
Definition unconvertible : error :=
  TypeError "Cannot convert object to primitive value".

(** The contributor [k] of the request body cannot be converted. *)
Definition hostile_contributor (playerData : gmap string value) (k : string)
    : Prop :=
  prop playerData k = VObj None.

(** ** The first version of the handler (src/unnamed/part_000)

    It forwards the request body as it came and relays the [response]
    entry of the service answer as [prediction]. *)

(** An answer, its body kept as the object handed to [res.json]. *)
Record reply : Type := {
  reply_code : Z;
  reply_body : gmap string value
}.

(** The [catch (error)] clause, word for word that of the current
    handler. *)
Definition on_error_v1 (error : error) : Res reply :=
  errorMsg ←
    match response error with
    | Some r => e ← get (data r) "error"; mret (js_or e (VStr generic_error))
    | None => mret (VStr generic_error)
    end;
  mret {| reply_code := 500; reply_body := {[ "error" := errorMsg ]} |}.

(** [res.json({ prediction: apiResponse.data.response })] inside the
    [try], with the outbound call made on [playerData] itself. *)
Definition predict_stats_v1 (post : gmap string value -> Res axios_response)
    (playerData : gmap string value) : Res reply :=
  match (apiResponse ← post playerData;
         r ← get (data apiResponse) "response";
         mret {| reply_code := 200;
                 reply_body := {[ "prediction" := r ]} |}) with
  | Ok r => Ok r
  | Throw e => on_error_v1 e
  end.

(** ** The form scripts of the browser

    Both later versions of the script (src/server.js, the [submit]
    listeners) build the request body with the same loop over
    [formData.entries()]; the first version (src/script.js) converts every
    entry.  An entry is a field name with the text typed into it. *)

Definition numericFields : list string :=
  [ "age"; "weight_kg"; "potential"; "skill_moves"; "pace"; "shooting";
    "passing"; "defending"; "physic" ].

(** [numericFields.includes(key)] *)
Definition is_numeric_field (key : string) : bool :=
  existsb (String.eqb key) numericFields.

(** [value.trim() === ''] *)
Definition blank (value : string) : bool :=
  String.eqb (trim value) EmptyString.

(** [playerData[key] = v] for a primitive [v] on an object literal.  The
    name __proto__ reaches the inherited setter, which ignores a
    primitive; every other name becomes an own entry. *)
Definition assign (playerData : gmap string value) (key : string)
    (v : value) : gmap string value :=
  if String.eqb key "__proto__" then playerData else <[key := v]> playerData.

(** The body of the loop in the later scripts:
    [if (value.trim() === '') continue;
     if (numericFields.includes(key)) {
       const n = Number(value); if (!Number.isNaN(n)) playerData[key] = n;
     } else playerData[key] = value;]
    [Number] is [string_to_number].  For a text that is not
    [representable] the script stores a number that the model does not
    hold; the model leaves such an entry out, and what is stored under a
    numeric name is stated for representable texts only.  The body is the
    object as built; its passage through JSON is not part of the model. *)
Definition collect_step (playerData : gmap string value)
    (entry : string * string) : gmap string value :=
  let '(key, value) := entry in
  if blank value then playerData
  else if is_numeric_field key then
    match string_to_number value with
    | NaN => playerData
    | Int z => assign playerData key (VNum (Int z))
    end
  else assign playerData key (VStr value).

(** [const playerData = {}; for (const [key, value] of formData.entries())
    ...] *)
Definition collect (entries : list (string * string)) : gmap string value :=
  fold_left collect_step entries ∅.

(** The body of the loop in the first script:
    [playerData[key] = isNaN(value) || value === '' ? value : Number(value)]
    For a text that is not [representable] the script stores a number
    that the model does not hold; the model keeps the text. *)
Definition collect_step_v1 (playerData : gmap string value)
    (entry : string * string) : gmap string value :=
  let '(key, value) := entry in
  assign playerData key
    (match string_to_number value with
     | NaN => VStr value
     | Int z => if String.eqb value EmptyString then VStr value
                else VNum (Int z)
     end).

Definition collect_v1 (entries : list (string * string))
    : gmap string value :=
  fold_left collect_step_v1 entries ∅.

(** The RawInput behind a body of strings and integers. *)
Definition scalar_of (v : value) : option scalar :=
  match v with
  | VNum (Int z) => Some (SNum z)
  | VStr s => Some (SStr s)
  | _ => None
  end.

Definition raw_of (playerData : gmap string value) : gmap string scalar :=
  omap scalar_of playerData.

(** Fields whose rule, when the field is absent, is a constant. *)
Definition constant_default (f : field) : bool :=
  match f with
  | Weight_kg | Potential | Skill_moves => false
  | _ => true
  end.

(** A form as a visitor may leave it. *)
Definition sample_form : list (string * string) :=
  [ ("age", " "); ("pace", "80"); ("shooting", "seventy");
    ("dribbling", "50"); ("body_type", "Lean"); ("work_rate", EmptyString) ].

Definition legacy_answer (v : value) : axios_response :=
  axios_ok {[ "response" := v ]}.

(** A service answer whose body is the JSON value null. *)
Definition null_body : axios_response :=
  {| status := 200; data := DValue VNull |}.

(** A service answer without a body: the HTTP client hands on the empty
    text. *)
Definition empty_body : axios_response :=
  {| status := 204; data := DValue (VStr EmptyString) |}.

(** The usual service answer: a prediction and a message. *)
Definition usual_answer : axios_response :=
  axios_ok (<["prediction" := zero]>
           {[ "message" := VStr "Player is Not Eligible to Play" ]}).

(** The names whose values the handler compares or averages. *)
Definition numeric_keys : list string :=
  [ "age"; "potential"; "skill_moves"; "dribbling"; "pace"; "shooting";
    "passing"; "defending"; "physic" ].

(** A RawInput that gives numbers (or nothing) under the numeric names,
    the contributors of the average being of magnitude at most 2^48. *)
Definition numeric_request (raw : gmap string scalar) : Prop :=
  forallb (numeric_or_absent raw) numeric_keys = true
  /\ bounded_contributors raw.

(** What the later scripts may store under a name: an integer under a
    numeric field, a text that is not blank under any other name. *)
Definition well_collected (key : string) (v : value) : Prop :=
  if is_numeric_field key then exists z, v = VNum (Int z)
  else exists s, v = VStr s /\ blank s = false.

(** * Properties *)

(** ** Sample runs of the coercions and of the normaliser *)

Example string_to_number_ex :
  string_to_number " 42 " = Int 42 /\ string_to_number EmptyString = Int 0
  /\ string_to_number "-7" = Int (-7) /\ string_to_number "abc" = NaN
  /\ string_to_number "-" = NaN.
Proof. repeat split; reflexivity. Qed.

Example parse_number_ex :
  parse_number "8e1" = Exact 80 /\ parse_number "80.0" = Exact 80
  /\ parse_number "0x50" = Exact 80 /\ parse_number "9007199254740992"
                                      = Exact 9007199254740992
  /\ parse_number "69.5" = Beyond /\ parse_number "Infinity" = Beyond
  /\ parse_number "9007199254740993" = Beyond
  /\ parse_number "1,5" = NotNumeric /\ parse_number "-0x10" = NotNumeric.
Proof. repeat split; reflexivity. Qed.

Example representable_ex :
  representable "seventy" = true /\ representable " 70 " = true
  /\ representable "69.5" = false /\ representable "1e400" = false.
Proof. repeat split; reflexivity. Qed.

Example number_to_string_ex :
  number_to_string (Int 210) = "210" /\ number_to_string (Int (-5)) = "-5"
  /\ number_to_string (Int 0) = "0".
Proof. repeat split; reflexivity. Qed.

Example includes_ex :
  includes (toLowerCase "Fat (normal/lean)") "fat" = true
  /\ includes (toLowerCase "Lean") "fat" = false
  /\ includes EmptyString EmptyString = true.
Proof. repeat split; reflexivity. Qed.

Example normalize_empty : normalize (of_raw ∅) = Ok all_defaults.
Proof. vm_compute. reflexivity. Qed.

Example normalize_six_stats :
  normalize (of_raw six_stats) = Ok six_stats_mapped
  /\ potential six_stats_mapped = VNum (Int 55).
Proof. split; [vm_compute; reflexivity | reflexivity]. Qed.

Example normalize_only_dribbling :
  skill_moves <$> normalize (of_raw only_dribbling) = Ok (VNum (Int 4)).
Proof. vm_compute. reflexivity. Qed.

(** ** Primitives never fault *)

Lemma of_scalar_is_scalar x : is_scalar (of_scalar x) = true.
Proof. destruct x; reflexivity. Qed.

Lemma is_scalar_primitive v : is_scalar v = true -> primitive v = true.
Proof. destruct v as [| | |[|]| |]; simpl; congruence. Qed.

Lemma is_scalar_defined v : is_scalar v = true -> defined v = true.
Proof. destruct v as [| | |[|]| |]; simpl; congruence. Qed.

Lemma to_primitive_primitive v : primitive v = true -> to_primitive v = Ok v.
Proof. destruct v; simpl; congruence. Qed.


Lemma js_add_primitive a b :
  primitive a = true -> primitive b = true ->
  exists r, js_add a b = Ok r /\ primitive r = true.
Proof.
  intros Ha Hb. unfold js_add.
  rewrite (to_primitive_primitive a Ha), (to_primitive_primitive b Hb).
  simpl. destruct (is_string a || is_string b); eexists; split; reflexivity.
Qed.

Lemma js_div_primitive a d :
  primitive a = true -> exists q, js_div a d = Ok q.
Proof.
  intros Ha. unfold js_div. rewrite (to_primitive_primitive a Ha). simpl.
  destruct (to_number a); eexists; reflexivity.
Qed.

Lemma prop_of_raw raw k :
  prop (of_raw raw) k = from_option of_scalar VUndefined (raw !! k).
Proof.
  unfold prop, of_raw. rewrite lookup_fmap.
  destruct (raw !! k); reflexivity.
Qed.

Lemma prop_of_raw_cases raw k :
  prop (of_raw raw) k = VUndefined \/ is_scalar (prop (of_raw raw) k) = true.
Proof.
  rewrite prop_of_raw. destruct (raw !! k) as [x|]; simpl; auto.
  right. apply of_scalar_is_scalar.
Qed.


(** A truthy scalar or the integer default: what [x || 0] leaves. *)
Lemma js_or_zero_scalar raw k :
  is_scalar (js_or (prop (of_raw raw) k) zero) = true.
Proof.
  unfold js_or.
  destruct (prop_of_raw_cases raw k) as [-> | H]; [reflexivity |].
  destruct (truthy _); [assumption | reflexivity].
Qed.

Lemma Math_round_or_zero q :
  is_scalar (js_or (Math_round q) zero) = true.
Proof.
  destruct q as [q|]; [| reflexivity].
  unfold js_or, Math_round. destruct (truthy _); reflexivity.
Qed.

Lemma potential_estimate_of_raw raw :
  exists v, potential_estimate (of_raw raw) = Ok v /\ is_scalar v = true.
Proof.
  unfold potential_estimate.
  pose proof (fun k => is_scalar_primitive _ (js_or_zero_scalar raw k)) as P.
  destruct (js_add_primitive _ _ (P "pace") (P "shooting")) as (s1 & -> & H1).
  simpl.
  destruct (js_add_primitive _ _ H1 (P "passing")) as (s2 & -> & H2). simpl.
  destruct (js_add_primitive _ _ H2 (P "dribbling")) as (s3 & -> & H3). simpl.
  destruct (js_add_primitive _ _ H3 (P "defending")) as (s4 & -> & H4). simpl.
  destruct (js_add_primitive _ _ H4 (P "physic")) as (s5 & -> & H5). simpl.
  destruct (js_div_primitive s5 6 H5) as (q & ->). simpl.
  eexists; split; [reflexivity | apply Math_round_or_zero].
Qed.

Lemma or_default_scalar raw k d :
  is_scalar d = true -> is_scalar (or_default (of_raw raw) k d) = true.
Proof.
  intros Hd. unfold or_default.
  destruct (prop_of_raw_cases raw k) as [-> | H]; [assumption |].
  now rewrite (is_scalar_defined _ H).
Qed.

Lemma js_or_default_scalar raw k s :
  is_scalar (js_or (prop (of_raw raw) k) (VStr s)) = true.
Proof.
  unfold js_or.
  destruct (prop_of_raw_cases raw k) as [-> | H]; [reflexivity |].
  destruct (truthy _); [assumption | reflexivity].
Qed.

(** Every entry of the record built from a RawInput is a string or an
    integer. *)
Lemma normalize_of_raw raw :
  exists m, normalize (of_raw raw) = Ok m
            /\ Forall (fun kv => is_scalar (snd kv) = true) (entries m).
Proof.
  unfold normalize.
  assert (exists v,
    (if defined (prop (of_raw raw) "potential")
     then mret (prop (of_raw raw) "potential")
     else potential_estimate (of_raw raw)) = Ok v /\ is_scalar v = true)
    as (v & -> & Hv).
  { destruct (prop_of_raw_cases raw "potential") as [-> | H].
    - simpl. apply potential_estimate_of_raw.
    - rewrite (is_scalar_defined _ H).
      eexists; split; [reflexivity | exact H]. }
  simpl. eexists; split; [reflexivity |].
  unfold entries; simpl.
  repeat (apply Forall_cons; split);
    try apply Forall_nil; simpl;
    try assumption;
    repeat first [ apply js_or_default_scalar | apply js_or_zero_scalar
                 | apply or_default_scalar | reflexivity ].
Qed.

(** What [normalize] stores in each field other than [potential]. *)
Lemma normalize_fields playerData m :
  normalize playerData = Ok m ->
  age m = or_default playerData "age" zero
  /\ weight_kg m = or_default playerData "weight_kg"
                     (js_or (prop playerData "weight") zero)
  /\ skill_moves m = or_default playerData "skill_moves"
                       (or_default playerData "dribbling" zero)
  /\ work_rate m = js_or (prop playerData "work_rate") (VStr "Unknown_Category")
  /\ body_type m = js_or (prop playerData "body_type") (VStr "Unknown_Category")
  /\ pace m = or_default playerData "pace" zero
  /\ shooting m = or_default playerData "shooting" zero
  /\ passing m = or_default playerData "passing" zero
  /\ defending m = or_default playerData "defending" zero
  /\ physic m = or_default playerData "physic" zero
  /\ player_traits m
     = js_or (prop playerData "player_traits") (VStr EmptyString).
Proof.
  unfold normalize.
  destruct (if defined (prop playerData "potential") then _ else _) as [v|e];
    simpl; [| discriminate].
  intros [= <-]. simpl. repeat split.
Qed.

Lemma normalize_potential playerData m :
  normalize playerData = Ok m ->
  (if defined (prop playerData "potential")
   then Ok (prop playerData "potential")
   else potential_estimate playerData) = Ok (potential m).
Proof.
  unfold normalize.
  destruct (if defined (prop playerData "potential") then _ else _) as [v|e];
    simpl; [| discriminate].
  now intros [= <-].
Qed.



Lemma body_check_truthy v :
  primitive v = true -> truthy v = true ->
  body_check v = Ok (includes (toLowerCase (to_string v)) "fat").
Proof.
  intros Hp Ht. unfold body_check, String_. rewrite Ht.
  now rewrite (to_primitive_primitive v Hp).
Qed.

(** ** The reason heuristic *)

Lemma check_lt v k :
  primitive v = true ->
  defined_and v (js_lt v (VNum (Int k))) = Ok (below v k).
Proof.
  intros Hp. unfold defined_and, js_lt, below.
  rewrite (to_primitive_primitive v Hp). destruct v; reflexivity.
Qed.

Lemma check_gt v k :
  primitive v = true ->
  defined_and v (js_gt v (VNum (Int k))) = Ok (above v k).
Proof.
  intros Hp. unfold defined_and, js_gt, above.
  rewrite (to_primitive_primitive v Hp). destruct v; reflexivity.
Qed.

Lemma mentions_fat_falsy v :
  primitive v = true -> truthy v = false -> mentions_fat v = false.
Proof.
  destruct v as [| |[|]|[|z]|[|c s]|]; simpl; try discriminate; try reflexivity.
  intros _ Hz. apply negb_false_iff, Z.eqb_eq in Hz. now subst.
Qed.

Lemma check_body v :
  primitive v = true -> body_check v = Ok (mentions_fat v).
Proof.
  intros Hp. destruct (truthy v) eqn:Ht.
  - now apply body_check_truthy.
  - unfold body_check. rewrite Ht. now rewrite mentions_fat_falsy.
Qed.

Lemma features_primitive_fields m :
  features_primitive m ->
  primitive (age m) = true /\ primitive (potential m) = true
  /\ primitive (skill_moves m) = true /\ primitive (body_type m) = true
  /\ primitive (pace m) = true /\ primitive (shooting m) = true
  /\ primitive (passing m) = true /\ primitive (defending m) = true
  /\ primitive (physic m) = true.
Proof.
  unfold features_primitive, entries. intros H.
  repeat (apply Forall_cons in H; destruct H as [? H]); simpl in *.
  repeat split; assumption.
Qed.

(** Case analysis on the outcome of the nine checks. *)
Ltac case_checks m :=
  destruct (below (pace m) 70), (below (shooting m) 65),
    (below (passing m) 65), (below (defending m) 60),
    (below (physic m) 65), (below (potential m) 50),
    (below (skill_moves m) 3), (above (age m) 34),
    (mentions_fat (body_type m)).

(** On primitive features the code computes the specified list. *)
Lemma reasons_block_primitive m :
  features_primitive m ->
  reasons_block zero m [] = Ok (explainIneligibility m).
Proof.
  intros H.
  destruct (features_primitive_fields m H)
    as (Ha & Hpo & Hsk & Hb & Hp & Hs & Hpa & Hd & Hph).
  unfold reasons_block. change (is_zero zero) with true. cbv iota.
  rewrite !check_lt, check_gt, check_body by assumption.
  unfold explainIneligibility, fired, checks.
  case_checks m; reflexivity.
Qed.

Lemma compute_reasons_primitive m :
  features_primitive m -> compute_reasons zero m = explainIneligibility m.
Proof.
  intros H. unfold compute_reasons. now rewrite reasons_block_primitive.
Qed.

Lemma filtered_sublist {A} (l : list (bool * A)) :
  sublist (List.map snd (List.filter fst l)) (List.map snd l).
Proof.
  induction l as [|[b a] l IH]; simpl.
  - apply sublist_nil.
  - destruct b; simpl; [now apply sublist_skip | now apply sublist_cons].
Qed.

Lemma fired_sublist m : sublist (fired m) catalog.
Proof. apply (filtered_sublist (checks m)). Qed.

Example weak_everywhere_reasons :
  compute_reasons zero weak_everywhere = catalog.
Proof. reflexivity. Qed.

(** C1.  With prediction 0, the reasons computed for a record with
    numbers in its numeric fields (and primitives elsewhere) are the
    catalog strings of those of the nine checks that hold (pace < 70,
    shooting < 65, passing < 65, defending < 60, physic < 65,
    potential < 50, skill_moves < 3, age > 34, body type containing "fat"
    in any letter case), listed in that fixed order; several may appear,
    and the list is always in catalog order. *)
Theorem reasons_follow_check_order (m : Mapped) :
  features_typed m ->
  compute_reasons zero m = explainIneligibility m
  /\ (fired m <> [] -> compute_reasons zero m = fired m)
  /\ sublist (fired m) catalog.
Proof.
  intros [H _]. rewrite (compute_reasons_primitive m H). repeat split.
  - unfold explainIneligibility. destruct (fired m); congruence.
  - apply fired_sublist.
Qed.

Lemma reasons_follow_check_order_witness :
  features_typed weak_everywhere
  /\ compute_reasons zero weak_everywhere = catalog.
Proof.
  assert (features_typed weak_everywhere) as P
    by (unfold features_typed, features_primitive; simpl;
        split; repeat constructor).
  split; [exact P |].
  destruct (reasons_follow_check_order weak_everywhere P) as (_ & H & _).
  rewrite H; [reflexivity | discriminate].
Defined.

Lemma filter_none {A} (l : list (bool * A)) :
  Forall (fun c => fst c = false) l -> List.filter fst l = [].
Proof.
  induction 1 as [|[b a] l Hb _ IH]; simpl in *; [reflexivity |].
  now rewrite Hb.
Qed.

(** C4.  With prediction 0, numbers in the numeric fields of the record
    (and primitives elsewhere) and none of the nine checks holding, the
    reasons are exactly the one fallback string; the all-90 record of the
    specification is such a record. *)
Theorem no_weak_area_fallback (m : Mapped) :
  features_typed m ->
  Forall (fun c => fst c = false) (checks m) ->
  compute_reasons zero m =
    ["No single weak area detected; overall stats may be below model threshold"]
  /\ length (compute_reasons zero m) = 1%nat.
Proof.
  intros [H _] Hn. rewrite (compute_reasons_primitive m H).
  unfold explainIneligibility, fired. rewrite (filter_none _ Hn).
  split; reflexivity.
Qed.

Lemma no_weak_area_fallback_witness :
  compute_reasons zero strong_everywhere = [fallback]
  /\ length (compute_reasons zero strong_everywhere) = 1%nat.
Proof.
  apply (no_weak_area_fallback strong_everywhere).
  - unfold features_typed, features_primitive; simpl.
    split; repeat constructor.
  - unfold checks; simpl. repeat constructor.
Defined.

(** ** Normalisation of a RawInput *)

Lemma is_scalar_populated v :
  is_scalar v = true -> v <> VUndefined /\ v <> VNull.
Proof. destruct v; simpl; intros H; split; congruence. Qed.

(** C8, with the count the record has.  [normalize] returns a record for
    every RawInput (entries that are strings, numbers or absent); the
    record has twelve fields, and each of them is present and not null. *)
Theorem normalize_total_populated (raw : gmap string scalar) :
  exists m, normalize (of_raw raw) = Ok m
            /\ length (entries m) = 12%nat
            /\ Forall (fun kv => snd kv <> VUndefined /\ snd kv <> VNull)
                 (entries m).
Proof.
  destruct (normalize_of_raw raw) as (m & Hm & Hs).
  exists m. split; [exact Hm |]. split; [reflexivity |].
  eapply Forall_impl; [exact Hs |].
  intros kv. apply is_scalar_populated.
Qed.

(** C8 as stated speaks of thirteen fields: the record built from the empty
    RawInput has twelve. *)
Lemma thirteen_fields_refuted :
  normalize (of_raw ∅) = Ok all_defaults
  /\ length (entries all_defaults) = 12%nat
  /\ length (entries all_defaults) <> 13%nat.
Proof.
  split; [vm_compute; reflexivity |].
  split; [reflexivity | discriminate].
Qed.



(** ** The estimate of potential *)

Lemma bind_Ok {A B} (a : A) (f : A -> Res B) : (Ok a ≫= f) = f a.
Proof. reflexivity. Qed.

Lemma js_or_int z : js_or (VNum (Int z)) zero = VNum (Int z).
Proof.
  unfold js_or; simpl. destruct (Z.eqb_spec z 0) as [-> |]; reflexivity.
Qed.

Lemma js_add_ints x y :
  js_add (VNum (Int x)) (VNum (Int y)) = Ok (VNum (Int (x + y))).
Proof. reflexivity. Qed.

Lemma js_div_int z d : js_div (VNum (Int z)) d = Ok (Some (Qmake z d)).
Proof. reflexivity. Qed.

Lemma contributor_numeric raw k :
  numeric_or_absent raw k = true ->
  js_or (prop (of_raw raw) k) zero = VNum (Int (contribution raw k)).
Proof.
  rewrite prop_of_raw. unfold numeric_or_absent, contribution.
  destruct (raw !! k) as [[z|s]|]; simpl; try discriminate; intros _.
  - apply js_or_int.
  - reflexivity.
Qed.

(** With numbers (or nothing) for the six contributors, the estimate is
    the rounded mean, the sum being exact in the model. *)
Lemma potential_estimate_numeric raw :
  numeric_contributors raw ->
  potential_estimate (of_raw raw) = Ok (VNum (Int (round_mean raw))).
Proof.
  unfold numeric_contributors, contributors. simpl forallb.
  rewrite !andb_true_iff. intros (H1 & H2 & H3 & H4 & H5 & H6 & _).
  unfold potential_estimate.
  rewrite !contributor_numeric by assumption.
  repeat (rewrite js_add_ints, bind_Ok).
  rewrite js_div_int, bind_Ok.
  unfold Math_round. now rewrite js_or_int.
Qed.

(** The rounded mean in integer arithmetic. *)
Lemma round_mean_closed_form raw :
  round_mean raw =
    (contribution raw "pace" + contribution raw "shooting"
     + contribution raw "passing" + contribution raw "dribbling"
     + contribution raw "defending" + contribution raw "physic" + 3) / 6.
Proof.
  unfold round_mean.
  set (s := contribution raw "pace" + _ + _ + _ + _ + _).
  unfold Qfloor, Qplus; simpl.
  change (Z.pos (6 * 2)) with (6 * 2).
  replace (s * 2 + 1 * 6) with ((s + 3) * 2) by lia.
  apply Z.div_mul_cancel_r; lia.
Qed.

Example six_stats_round_mean : round_mean six_stats = 55.
Proof. vm_compute. reflexivity. Qed.

(** C2, at the input that breaks it.  The specification's example with
    dribbling sent as the text "50": the six contributors are joined as
    text ("210" then "21050", "2105040", "210504030") before the division,
    and the stored potential is 35084005, not the rounded mean 55. *)
Theorem text_contributor_concatenated :
  potential <$> normalize (of_raw dribbling_as_text)
    = Ok (VNum (Int 35084005))
  /\ potential <$> normalize (of_raw dribbling_as_text)
    <> Ok (VNum (Int 55)).
Proof.
  assert (potential <$> normalize (of_raw dribbling_as_text)
          = Ok (VNum (Int 35084005))) as E by (vm_compute; reflexivity).
  split; [exact E |]. rewrite E. discriminate.
Qed.

(** ** Absent fields and empty strings *)

Lemma proj_normalize raw f :
  exists m, normalize (of_raw raw) = Ok m
            /\ proj f <$> normalize (of_raw raw) = Ok (proj f m).
Proof.
  destruct (normalize_of_raw raw) as (m & Hm & _).
  exists m. split; [exact Hm |]. now rewrite Hm.
Qed.

Lemma prop_absent raw k : raw !! k = None -> prop (of_raw raw) k = VUndefined.
Proof. intros H. rewrite prop_of_raw. now rewrite H. Qed.

Lemma prop_empty raw k :
  prop (of_raw (<[k := SStr EmptyString]> raw)) k = VStr EmptyString.
Proof. rewrite prop_of_raw. now rewrite lookup_insert_eq. Qed.

Lemma absent_rule_applied raw f :
  raw !! name f = None ->
  (f = Potential -> numeric_contributors raw) ->
  proj f <$> normalize (of_raw raw) = Ok (absent_rule f raw).
Proof.
  intros Ha Hn.
  destruct (proj_normalize raw f) as (m & Hm & ->). f_equal.
  pose proof (normalize_potential _ _ Hm) as Hp.
  destruct (normalize_fields _ _ Hm)
    as (E1 & E2 & E3 & E4 & E5 & E6 & E7 & E8 & E9 & E10 & E11).
  destruct f; simpl in Ha |- *;
    try (first [rewrite E1 | rewrite E4 | rewrite E5 | rewrite E6
               | rewrite E7 | rewrite E8 | rewrite E9 | rewrite E10
               | rewrite E11];
         unfold or_default, js_or; now rewrite (prop_absent _ _ Ha)).
  - rewrite E2. unfold or_default. rewrite (prop_absent _ _ Ha). simpl.
    rewrite prop_of_raw. unfold js_or.
    destruct (raw !! "weight") as [x|]; reflexivity.
  - rewrite (prop_absent _ _ Ha) in Hp. simpl in Hp.
    rewrite (potential_estimate_numeric raw (Hn eq_refl)) in Hp.
    now injection Hp as <-.
  - rewrite E3. unfold or_default at 1. rewrite (prop_absent _ _ Ha). simpl.
    unfold or_default. rewrite prop_of_raw.
    destruct (raw !! "dribbling") as [x|]; simpl; [| reflexivity].
    now rewrite (is_scalar_defined _ (of_scalar_is_scalar x)).
Qed.

Lemma empty_string_defaulted raw f :
  or_filled f = true ->
  proj f <$> normalize (of_raw (<[name f := SStr EmptyString]> raw))
    = Ok (absent_rule f raw).
Proof.
  intros Hf.
  destruct (proj_normalize (<[name f := SStr EmptyString]> raw) f)
    as (m & Hm & ->).
  f_equal.
  destruct (normalize_fields _ _ Hm)
    as (_ & _ & _ & E4 & E5 & _ & _ & _ & _ & _ & E11).
  pose proof (prop_empty raw (name f)) as He.
  destruct f; try discriminate; simpl in *.
  - rewrite E4. now rewrite He.
  - rewrite E5. now rewrite He.
  - rewrite E11. now rewrite He.
Qed.

Lemma empty_string_kept raw f :
  or_filled f = false ->
  proj f <$> normalize (of_raw (<[name f := SStr EmptyString]> raw))
    = Ok (VStr EmptyString).
Proof.
  intros Hf.
  destruct (proj_normalize (<[name f := SStr EmptyString]> raw) f)
    as (m & Hm & ->).
  f_equal.
  pose proof (normalize_potential _ _ Hm) as Hp.
  destruct (normalize_fields _ _ Hm)
    as (E1 & E2 & E3 & _ & _ & E6 & E7 & E8 & E9 & E10 & _).
  pose proof (prop_empty raw (name f)) as He.
  destruct f; try discriminate; simpl in *;
    try (first [rewrite E1 | rewrite E2 | rewrite E3 | rewrite E6
               | rewrite E7 | rewrite E8 | rewrite E9 | rewrite E10];
         unfold or_default at 1; now rewrite He).
  rewrite He in Hp. simpl in Hp. now injection Hp as <-.
Qed.

(** C3 as stated fails: an age sent as the empty string stays the empty
    string, it does not become 0. *)
Lemma empty_string_age_kept :
  age <$> normalize (of_raw empty_age) = Ok (VStr EmptyString)
  /\ age <$> normalize (of_raw empty_age) <> Ok (VNum (Int 0)).
Proof.
  assert (age <$> normalize (of_raw empty_age) = Ok (VStr EmptyString)) as E
    by (vm_compute; reflexivity).
  split; [exact E |]. rewrite E. discriminate.
Qed.

(** C3, amended.  The rule of a field is applied when the RawInput lacks
    the field (for potential: when the contributors are missing or
    integers of magnitude at most 2^48, so that the sum and its rounded
    sixth are exact).  A field sent as the empty string gets its rule only
    for work_rate, body_type and player_traits; for the nine other fields
    the empty string is what the record holds. *)
Theorem default_rules_absent_and_empty (raw : gmap string scalar) (f : field) :
  (raw !! name f = None ->
   (f = Potential -> numeric_contributors raw /\ bounded_contributors raw) ->
   proj f <$> normalize (of_raw raw) = Ok (absent_rule f raw))
  /\ (or_filled f = true ->
      proj f <$> normalize (of_raw (<[name f := SStr EmptyString]> raw))
        = Ok (absent_rule f raw))
  /\ (or_filled f = false ->
      proj f <$> normalize (of_raw (<[name f := SStr EmptyString]> raw))
        = Ok (VStr EmptyString)).
Proof.
  split.
  - intros Ha Hn. apply absent_rule_applied; [exact Ha |].
    intros Hf. exact (proj1 (Hn Hf)).
  - split; [apply empty_string_defaulted | apply empty_string_kept].
Qed.

Lemma default_rules_absent_and_empty_witness :
  proj Potential <$> normalize (of_raw six_stats) = Ok (VNum (Int 55))
  /\ proj Work_rate
       <$> normalize (of_raw (<["work_rate" := SStr EmptyString]> ∅))
     = Ok (VStr "Unknown_Category")
  /\ proj Age <$> normalize (of_raw (<["age" := SStr EmptyString]> ∅))
     = Ok (VStr EmptyString).
Proof.
  split; [| split].
  - apply (default_rules_absent_and_empty six_stats Potential).
    + reflexivity.
    + intros _. split; reflexivity.
  - apply (default_rules_absent_and_empty ∅ Work_rate). reflexivity.
  - apply (default_rules_absent_and_empty ∅ Age). reflexivity.
Defined.

(** ** The success response *)

Lemma get_pythonData d k :
  get (if doc_truthy d then d else DObject ∅) k = Ok (read d k).
Proof.
  destruct d as [o | v]; [reflexivity |].
  destruct v as [| |[|]|[|z]|[|c s]|p]; try reflexivity.
  simpl. destruct (z =? 0); reflexivity.
Qed.

(** The response written after a successful outbound call. *)
Lemma on_success_eq m resp :
  on_success m resp =
    let d := data resp in
    let p := if defined (read d "prediction") then read d "prediction"
             else js_or (read d "response") VNull in
    Ok {| code := 200;
          payload := Success p (js_or (read d "message") VNull)
                       (compute_reasons p m)
                       (if defined (read d "overall_calculated")
                        then read d "overall_calculated" else VNull) |}.
Proof.
  unfold on_success. cbv zeta. rewrite !get_pythonData. simpl.
  destruct (defined (read (data resp) "prediction")); reflexivity.
Qed.

Lemma js_or_null_pass_through d k :
  survives_or_null (read d k) = true ->
  js_or (read d k) VNull = pass_through d k.
Proof.
  unfold pass_through, js_or. destruct (read d k) as [| |[|]|[|z]|[|c s]|p];
    simpl; try reflexivity; try discriminate.
  intros ->. reflexivity.
Qed.

(** C5 as stated fails: a service message that is present but is the empty
    string is not handed on, the response carries null in its place. *)
Lemma empty_message_not_relayed :
  on_success all_defaults empty_message
    = Ok {| code := 200;
            payload := Success (VNum (Int 1)) VNull [] VNull |}
  /\ response_as_stated all_defaults (data empty_message)
    = {| code := 200;
         payload := Success (VNum (Int 1)) (VStr EmptyString) [] VNull |}
  /\ on_success all_defaults empty_message
    <> Ok (response_as_stated all_defaults (data empty_message)).
Proof.
  assert (on_success all_defaults empty_message
          = Ok {| code := 200;
                  payload := Success (VNum (Int 1)) VNull [] VNull |}) as E1
    by (vm_compute; reflexivity).
  assert (response_as_stated all_defaults (data empty_message)
          = {| code := 200;
               payload := Success (VNum (Int 1)) (VStr EmptyString) [] VNull |}) as E2
    by (vm_compute; reflexivity).
  split; [exact E1 |]. split; [exact E2 |].
  rewrite E1, E2. discriminate.
Qed.

(** C5, amended.  After a successful outbound call the response has status
    200 and carries prediction (the legacy response field when prediction
    is absent), message and overall_calculated, with null for each absent
    field, for every service response whose message is absent, null or
    truthy and whose legacy response field, when it is consulted, is
    absent, null or truthy. *)
Theorem relay_matches_statement (m : Mapped) (resp : axios_response) :
  survives_or_null (read (data resp) "message") = true ->
  (defined (read (data resp) "prediction") = true
   \/ survives_or_null (read (data resp) "response") = true) ->
  on_success m resp = Ok (response_as_stated m (data resp)).
Proof.
  intros Hm Hp. rewrite on_success_eq. cbv zeta.
  unfold response_as_stated, relay_as_stated.
  rewrite (js_or_null_pass_through _ _ Hm).
  unfold pass_through at 3.
  destruct (defined (read (data resp) "prediction")) eqn:Ed; [reflexivity |].
  destruct Hp as [Hp | Hp]; [discriminate |].
  now rewrite (js_or_null_pass_through _ _ Hp).
Qed.

Lemma relay_matches_statement_witness :
  on_success all_defaults full_answer
  = Ok {| code := 200;
          payload := Success (VNum (Int 1)) (VStr "Player is Eligible to Play")
                       [] (VNum (Int 80)) |}.
Proof.
  rewrite (relay_matches_statement all_defaults full_answer).
  - reflexivity.
  - reflexivity.
  - left. reflexivity.
Defined.

(** C9.  A service message that is present but falsy (the empty string, 0
    or false) is relayed as null; a legacy response field equal to 0, with
    prediction absent, is relayed as a null prediction (and so without
    reasons). *)
Theorem falsy_fields_relayed_null (m : Mapped) (o : gmap string value)
    (st : Z) (v : value) :
  (o !! "message" = Some v ->
   v = VStr EmptyString \/ v = VNum (Int 0) \/ v = VBool false ->
   exists p rs oc,
     on_success m {| status := st; data := DObject o |}
     = Ok {| code := 200; payload := Success p VNull rs oc |})
  /\ (o !! "prediction" = None ->
      o !! "response" = Some (VNum (Int 0)) ->
      exists msg oc,
        on_success m {| status := st; data := DObject o |}
        = Ok {| code := 200; payload := Success VNull msg [] oc |}).
Proof.
  split.
  - intros Hv Hf. rewrite on_success_eq. cbv zeta. simpl data.
    assert (read (DObject o) "message" = v) as ->
      by (unfold read, prop; now rewrite Hv).
    assert (js_or v VNull = VNull) as ->
      by (destruct Hf as [-> | [-> | ->]]; reflexivity).
    do 3 eexists. reflexivity.
  - intros Hp Hr. rewrite on_success_eq. cbv zeta. simpl data.
    assert (read (DObject o) "prediction" = VUndefined) as ->
      by (unfold read, prop; now rewrite Hp).
    assert (read (DObject o) "response" = VNum (Int 0)) as ->
      by (unfold read, prop; now rewrite Hr).
    do 2 eexists. reflexivity.
Qed.

Lemma falsy_fields_relayed_null_witness :
  (exists p rs oc,
     on_success all_defaults empty_message
     = Ok {| code := 200; payload := Success p VNull rs oc |})
  /\ (exists msg oc,
        on_success all_defaults legacy_zero
        = Ok {| code := 200; payload := Success VNull msg [] oc |}).
Proof.
  split.
  - destruct (falsy_fields_relayed_null all_defaults
                {[ "prediction" := VNum (Int 1); "message" := VStr EmptyString ]}
                200 (VStr EmptyString)) as [H _].
    apply H; [vm_compute; reflexivity | left; reflexivity].
  - destruct (falsy_fields_relayed_null all_defaults
                {[ "response" := VNum (Int 0) ]} 200 VNull) as [_ H].
    apply H; vm_compute; reflexivity.
Defined.

(** ** The endpoint *)

Section Endpoint.

(** The outbound call, the request body and the record it normalises to. *)
Variable post : Mapped -> Res axios_response.
Variable playerData : gmap string value.
Variable mapped : Mapped.
Hypothesis normalised : normalize playerData = Ok mapped.

Lemma predict_stats_success apiResponse :
  post mapped = Ok apiResponse ->
  predict_stats post playerData = on_success mapped apiResponse.
Proof.
  intros Hp. unfold predict_stats. rewrite normalised, bind_Ok, Hp, bind_Ok.
  rewrite on_success_eq. reflexivity.
Qed.

Lemma predict_stats_failure e :
  post mapped = Throw e ->
  predict_stats post playerData = on_error e.
Proof.
  intros Hp. unfold predict_stats. rewrite normalised, bind_Ok, Hp.
  reflexivity.
Qed.

(** C6.  Once the input is normalised and the outbound call has succeeded,
    the endpoint always writes the success response (status 200, no error
    envelope); a fault raised while the reasons are computed is swallowed
    and leaves the reasons empty. *)
Theorem reason_fault_swallowed (apiResponse : axios_response) :
  post mapped = Ok apiResponse ->
  exists p msg rs oc,
    predict_stats post playerData
    = Ok {| code := 200; payload := Success p msg rs oc |}
    /\ rs = compute_reasons p mapped
    /\ (forall e, reasons_block p mapped [] = Throw e -> rs = []).
Proof.
  intros Hp.
  rewrite (predict_stats_success _ Hp), on_success_eq. cbv zeta.
  do 4 eexists. split; [reflexivity |]. split; [reflexivity |].
  intros e He. unfold compute_reasons. now rewrite He.
Qed.

(** C7.  When the outbound call fails and the error carries no response
    (the service could not be reached), the endpoint answers with status
    500, which is a server-error status, and the body
    { error: "Sorry, I'm having trouble thinking right now." }, whatever
    the error says about the connection. *)
Theorem unreachable_service_generic (e : error) :
  post mapped = Throw e ->
  response e = None ->
  exists r,
    predict_stats post playerData = Ok r
    /\ 500 <= code r
    /\ payload r
       = Failure (VStr "Sorry, I'm having trouble thinking right now.").
Proof.
  intros Hp Hr. rewrite (predict_stats_failure _ Hp).
  unfold on_error. rewrite Hr. simpl.
  eexists. split; [reflexivity |]. split; [simpl; lia | reflexivity].
Qed.

End Endpoint.

Lemma reason_fault_swallowed_witness :
  (exists e, reasons_block zero hostile_mapped [] = Throw e)
  /\ exists p msg rs oc,
       predict_stats (fun _ => Ok says_ineligible) hostile_body_type
       = Ok {| code := 200; payload := Success p msg rs oc |}
       /\ rs = compute_reasons p hostile_mapped
       /\ (forall e, reasons_block p hostile_mapped [] = Throw e -> rs = []).
Proof.
  split.
  - eexists. vm_compute. reflexivity.
  - apply (reason_fault_swallowed (fun _ => Ok says_ineligible)
             hostile_body_type hostile_mapped)
        with (apiResponse := says_ineligible).
    + vm_compute. reflexivity.
    + reflexivity.
Defined.

Example hostile_body_type_response :
  predict_stats (fun _ => Ok says_ineligible) hostile_body_type
  = Ok {| code := 200; payload := Success zero VNull [] VNull |}.
Proof. vm_compute. reflexivity. Qed.

Lemma unreachable_service_generic_witness :
  exists r,
    predict_stats (fun _ => Throw connection_refused) (of_raw six_stats) = Ok r
    /\ 500 <= code r
    /\ payload r = Failure (VStr generic_error).
Proof.
  apply (unreachable_service_generic (fun _ => Throw connection_refused)
           (of_raw six_stats) six_stats_mapped)
    with (e := connection_refused).
  - vm_compute. reflexivity.
  - reflexivity.
  - reflexivity.
Defined.

(** * Further properties of the handler *)

(** ** When normalisation faults *)

Lemma defined_false v : defined v = false -> v = VUndefined.
Proof. destruct v; simpl; congruence. Qed.

Lemma js_or_zero_hostile a : js_or a zero = VObj None -> a = VObj None.
Proof. unfold js_or. destruct (truthy a); [auto | discriminate]. Qed.

Lemma to_primitive_throw v e :
  to_primitive v = Throw e -> v = VObj None /\ e = unconvertible.
Proof.
  destruct v as [| | | | |[s|]]; simpl; try discriminate.
  intros [= <-]. split; reflexivity.
Qed.

Lemma js_add_throw a b e :
  js_add a b = Throw e ->
  (a = VObj None \/ b = VObj None) /\ e = unconvertible.
Proof.
  unfold js_add. destruct (to_primitive a) as [pa|ea] eqn:Ea; simpl.
  - destruct (to_primitive b) as [pb|eb] eqn:Eb; simpl.
    + destruct (is_string pa || is_string pb); discriminate.
    + intros [= <-]. apply to_primitive_throw in Eb as [-> ->]. auto.
  - intros [= <-]. apply to_primitive_throw in Ea as [-> ->]. auto.
Qed.

Lemma js_add_ok a b r :
  js_add a b = Ok r ->
  primitive r = true /\ a <> VObj None /\ b <> VObj None.
Proof.
  unfold js_add. destruct (to_primitive a) as [pa|ea] eqn:Ea; simpl;
    [| discriminate].
  destruct (to_primitive b) as [pb|eb] eqn:Eb; simpl; [| discriminate].
  intros H. repeat split.
  - destruct (is_string pa || is_string pb); injection H as <-; reflexivity.
  - intros ->. discriminate.
  - intros ->. discriminate.
Qed.

Lemma js_div_throw a d e : js_div a d = Throw e -> a = VObj None.
Proof.
  unfold js_div. destruct (to_primitive a) as [pa|ea] eqn:Ea; simpl.
  - destruct (to_number pa); discriminate.
  - intros _. now apply to_primitive_throw in Ea as [-> _].
Qed.

(** Case analysis on the next addition of the chain. *)
Ltac next_add E :=
  match goal with
  | |- context [js_add ?a ?b] => destruct (js_add a b) eqn:E; simpl
  end.

(** One link of the chain of additions has faulted. *)
Ltac blame_contributor E :=
  intros [= <-];
  apply js_add_throw in E as [[H|H] ->];
  try (subst; discriminate);
  apply js_or_zero_hostile in H;
  (split; [rewrite !Exists_cons; tauto | reflexivity]).

(** Unfolding the chain of additions: a fault comes from a contributor,
    a result means no contributor was hostile. *)
Lemma potential_estimate_throw playerData e :
  potential_estimate playerData = Throw e ->
  Exists (hostile_contributor playerData) contributors /\ e = unconvertible.
Proof.
  unfold potential_estimate, contributors, hostile_contributor.
  next_add E1; [| blame_contributor E1].
  apply js_add_ok in E1 as (P1 & _).
  next_add E2; [| blame_contributor E2].
  apply js_add_ok in E2 as (P2 & _).
  next_add E3; [| blame_contributor E3].
  apply js_add_ok in E3 as (P3 & _).
  next_add E4; [| blame_contributor E4].
  apply js_add_ok in E4 as (P4 & _).
  next_add E5; [| blame_contributor E5].
  apply js_add_ok in E5 as (P5 & _).
  match goal with
  | |- context [js_div ?s 6] => destruct (js_div s 6) eqn:E6; simpl
  end; [discriminate |].
  apply js_div_throw in E6. subst. discriminate.
Qed.

Lemma js_or_zero_not_hostile a : a <> VObj None -> js_or a zero <> VObj None.
Proof. intros H E. apply H. now apply js_or_zero_hostile. Qed.

Lemma potential_estimate_ok playerData v :
  potential_estimate playerData = Ok v ->
  Forall (fun k => ~ hostile_contributor playerData k) contributors
  /\ exists q, v = js_or (Math_round q) zero.
Proof.
  unfold potential_estimate, contributors, hostile_contributor.
  next_add E1; [| discriminate].
  apply js_add_ok in E1 as (_ & A1 & A2).
  next_add E2; [| discriminate].
  apply js_add_ok in E2 as (_ & _ & A3).
  next_add E3; [| discriminate].
  apply js_add_ok in E3 as (_ & _ & A4).
  next_add E4; [| discriminate].
  apply js_add_ok in E4 as (_ & _ & A5).
  next_add E5; [| discriminate].
  apply js_add_ok in E5 as (_ & _ & A6).
  match goal with
  | |- context [js_div ?s 6] => destruct (js_div s 6) as [q|] eqn:E6; simpl
  end; [| discriminate].
  intros [= <-]. split; [| now exists q].
  repeat (apply Forall_cons; split); try (now apply Forall_nil);
    intros H; rewrite H in *; unfold js_or in *; simpl in *; congruence.
Qed.

Lemma normalize_throw playerData e :
  normalize playerData = Throw e ->
  prop playerData "potential" = VUndefined
  /\ potential_estimate playerData = Throw e.
Proof.
  unfold normalize.
  destruct (defined (prop playerData "potential")) eqn:Ed; simpl;
    [discriminate |].
  destruct (potential_estimate playerData) as [v|e']; simpl; [discriminate |].
  intros [= <-]. split; [now apply defined_false | reflexivity].
Qed.

(** X1.  [normalize] faults exactly when the body gives no potential and
    one of the six contributors of the average is a value that cannot be
    converted to a primitive; nothing else in a body makes it fault. *)
Theorem normalize_fault_iff (playerData : gmap string value) :
  (exists e, normalize playerData = Throw e)
  <-> prop playerData "potential" = VUndefined
      /\ Exists (hostile_contributor playerData) contributors.
Proof.
  split.
  - intros (e & He). apply normalize_throw in He as (Hp & He).
    split; [exact Hp |]. now apply potential_estimate_throw in He.
  - intros (Hp & Hx). unfold normalize. rewrite Hp. simpl.
    destruct (potential_estimate playerData) as [v|e] eqn:E.
    + apply potential_estimate_ok in E as (Hf & _).
      apply Exists_exists in Hx as (k & Hk & Hh).
      rewrite Forall_forall in Hf. now destruct (Hf k Hk).
    + now exists e.
Qed.

Lemma normalize_fault_iff_witness :
  exists e, normalize hostile_pace = Throw e.
Proof.
  apply (normalize_fault_iff hostile_pace). split.
  - reflexivity.
  - unfold contributors. apply Exists_cons. left. reflexivity.
Defined.

(** X2.  When [normalize] faults, the endpoint answers with status 500 and
    the generic error text whatever the outbound call would have done: the
    prediction service plays no part in the answer. *)
Theorem normalisation_fault_answer (post : Mapped -> Res axios_response)
    (playerData : gmap string value) (e : error) :
  normalize playerData = Throw e ->
  predict_stats post playerData
  = Ok {| code := 500; payload := Failure (VStr generic_error) |}.
Proof.
  intros He. unfold predict_stats. rewrite He. simpl.
  apply normalize_throw in He as (_ & He).
  apply potential_estimate_throw in He as (_ & ->). reflexivity.
Qed.

Lemma normalisation_fault_answer_witness :
  predict_stats (fun _ => Ok says_ineligible) hostile_pace
  = Ok {| code := 500; payload := Failure (VStr generic_error) |}.
Proof.
  apply (normalisation_fault_answer _ hostile_pace unconvertible).
  vm_compute. reflexivity.
Defined.

(** ** What the record always satisfies *)

Lemma truthy_defined v : truthy v = true -> defined v = true.
Proof. destruct v; simpl; congruence. Qed.

Lemma defined_js_or a d : defined d = true -> defined (js_or a d) = true.
Proof.
  intros Hd. unfold js_or. destruct (truthy a) eqn:E; [| exact Hd].
  now apply truthy_defined.
Qed.

Lemma defined_or_default playerData k d :
  defined d = true -> defined (or_default playerData k d) = true.
Proof.
  intros Hd. unfold or_default.
  destruct (defined (prop playerData k)) eqn:E; [exact E | exact Hd].
Qed.

Lemma defined_potential playerData m :
  normalize playerData = Ok m -> defined (potential m) = true.
Proof.
  intros Hm. pose proof (normalize_potential _ _ Hm) as Hp.
  destruct (defined (prop playerData "potential")) eqn:E.
  - injection Hp as <-. exact E.
  - apply potential_estimate_ok in Hp as (_ & q & ->).
    now apply defined_js_or.
Qed.

(** X3.  Whatever the request body holds, a record that [normalize]
    returns has no undefined field: all twelve keys reach the prediction
    service. *)
Theorem normalize_entries_defined (playerData : gmap string value)
    (m : Mapped) :
  normalize playerData = Ok m ->
  Forall (fun kv => defined (snd kv) = true) (entries m).
Proof.
  intros Hm. pose proof (defined_potential _ _ Hm) as Hp.
  destruct (normalize_fields _ _ Hm)
    as (E1 & E2 & E3 & E4 & E5 & E6 & E7 & E8 & E9 & E10 & E11).
  unfold entries.
  repeat (apply Forall_cons; split); try (now apply Forall_nil); simpl;
    try exact Hp;
    first [ rewrite E1 | rewrite E2 | rewrite E3 | rewrite E4 | rewrite E5
          | rewrite E6 | rewrite E7 | rewrite E8 | rewrite E9 | rewrite E10
          | rewrite E11 ];
    repeat first [ apply defined_or_default | apply defined_js_or
                 | reflexivity ].
Qed.

Lemma normalize_entries_defined_witness :
  Forall (fun kv => defined (snd kv) = true) (entries hostile_mapped).
Proof.
  apply (normalize_entries_defined hostile_body_type hostile_mapped).
  vm_compute. reflexivity.
Defined.

(** X4.  No validation: a value supplied for one of the nine guarded
    fields is stored as it came (a negative or oversized number, a text,
    null, a nested value), and so is any truthy value supplied for
    work_rate, body_type or player_traits. *)
Theorem supplied_values_kept (playerData : gmap string value) (m : Mapped)
    (f : field) :
  normalize playerData = Ok m ->
  (if or_filled f then truthy (prop playerData (name f))
   else defined (prop playerData (name f))) = true ->
  proj f m = prop playerData (name f).
Proof.
  intros Hm Hv. pose proof (normalize_potential _ _ Hm) as Hp.
  destruct (normalize_fields _ _ Hm)
    as (E1 & E2 & E3 & E4 & E5 & E6 & E7 & E8 & E9 & E10 & E11).
  destruct f; simpl in *;
    try (first [ rewrite E1 | rewrite E2 | rewrite E3 | rewrite E4
               | rewrite E5 | rewrite E6 | rewrite E7 | rewrite E8
               | rewrite E9 | rewrite E10 | rewrite E11 ];
         first [ unfold or_default at 1 | unfold js_or ];
         now rewrite Hv).
  rewrite Hv in Hp. now injection Hp as <-.
Qed.

Lemma supplied_values_kept_witness :
  proj Body_type hostile_mapped = VObj None
  /\ proj Potential hostile_mapped = VNum (Int 50).
Proof.
  split.
  - apply (supplied_values_kept hostile_body_type hostile_mapped Body_type);
      vm_compute; reflexivity.
  - apply (supplied_values_kept hostile_body_type hostile_mapped Potential);
      vm_compute; reflexivity.
Defined.

(** ** Normalising twice *)

Lemma prop_to_object m f : prop (to_object m) (name f) = proj f m.
Proof. destruct f; vm_compute; reflexivity. Qed.

(** Replace the read of field [f] in [to_object m] by the field. *)
Ltac read_back m f :=
  let H := fresh in
  pose proof (prop_to_object m f) as H; cbn [name proj] in H;
  rewrite !H; clear H.

Lemma js_or_idem a d : js_or (js_or a d) d = js_or a d.
Proof.
  unfold js_or. destruct (truthy a) eqn:E; [now rewrite E |].
  destruct (truthy d); reflexivity.
Qed.

(** X5.  [normalize] is idempotent: applied to the object it produced it
    returns the same record, for every request body on which it returns
    at all. *)
Theorem normalize_idempotent (playerData : gmap string value) (m : Mapped) :
  normalize playerData = Ok m ->
  normalize (to_object m) = Ok m.
Proof.
  intros Hm.
  pose proof (normalize_entries_defined _ _ Hm) as Hd.
  destruct (normalize_fields _ _ Hm)
    as (_ & _ & _ & E4 & E5 & _ & _ & _ & _ & _ & E11).
  unfold entries in Hd.
  repeat (apply Forall_cons in Hd; destruct Hd as [? Hd]); simpl in *.
  unfold normalize, or_default.
  read_back m Age; read_back m Weight_kg; read_back m Potential;
  read_back m Skill_moves; read_back m Work_rate; read_back m Body_type;
  read_back m Pace; read_back m Shooting; read_back m Passing;
  read_back m Defending; read_back m Physic; read_back m Player_traits.
  repeat match goal with
         | H : defined ?v = true |- context [defined ?v] => rewrite H
         end.
  simpl.
  rewrite E4, E5, E11, !js_or_idem, <- E4, <- E5, <- E11.
  destruct m; reflexivity.
Qed.

Lemma normalize_idempotent_witness :
  normalize (to_object six_stats_mapped) = Ok six_stats_mapped.
Proof.
  apply (normalize_idempotent (of_raw six_stats) six_stats_mapped).
  vm_compute. reflexivity.
Defined.

(** ** The answers of the endpoint *)

Lemma on_error_status e r :
  on_error e = Ok r -> code r = 500 /\ exists v, payload r = Failure v.
Proof.
  unfold on_error.
  destruct (match response e with Some _ => _ | None => _ end) as [v|e'];
    simpl; [| discriminate].
  intros [= <-]. split; [reflexivity | now exists v].
Qed.

(** X6.  Whenever the endpoint writes an answer it is one of two shapes:
    status 200 with the four-field success body, or status 500 with the
    error envelope. *)
Theorem answer_shapes (post : Mapped -> Res axios_response)
    (playerData : gmap string value) (r : http_response) :
  predict_stats post playerData = Ok r ->
  (code r = 200
   /\ exists p msg rs oc, payload r = Success p msg rs oc)
  \/ (code r = 500 /\ exists v, payload r = Failure v).
Proof.
  unfold predict_stats.
  destruct (normalize playerData) as [m|e] eqn:En; simpl.
  - destruct (post m) as [resp|e] eqn:Ep; simpl.
    + rewrite on_success_eq. cbv zeta. intros [= <-]. left.
      split; [reflexivity |]. do 4 eexists. reflexivity.
    + intros H. right. now apply on_error_status in H.
  - intros H. right. now apply on_error_status in H.
Qed.

Lemma answer_shapes_witness :
  (200 = 200
   /\ exists p msg rs oc,
        Success zero VNull [] VNull = Success p msg rs oc)
  \/ (200 = 500 /\ exists v, Success zero VNull [] VNull = Failure v).
Proof.
  apply (answer_shapes (fun _ => Ok says_ineligible) hostile_body_type
           {| code := 200; payload := Success zero VNull [] VNull |}).
  vm_compute. reflexivity.
Defined.

Section ServiceErrors.

(** The outbound call fails with a response attached to the error. *)
Variable post : Mapped -> Res axios_response.
Variable playerData : gmap string value.
Variable mapped : Mapped.
Variable e : error.
Variable r : axios_response.
Hypothesis normalised : normalize playerData = Ok mapped.
Hypothesis failed : post mapped = Throw e.
Hypothesis answered : response e = Some r.

Lemma predict_stats_service_error :
  predict_stats post playerData = on_error e.
Proof.
  unfold predict_stats. rewrite normalised, bind_Ok, failed. reflexivity.
Qed.

(** X7.  When the prediction service answers a failed call with a body
    that has a truthy [error] entry, that entry is handed to the client
    unchanged with status 500; when the entry is missing or falsy, or the
    body is a text, a number or an array, the client gets the generic text
    instead. *)
Theorem service_error_forwarded :
  (forall o, data r = DObject o ->
     predict_stats post playerData
     = Ok {| code := 500;
             payload := Failure (if truthy (prop o "error")
                                 then prop o "error"
                                 else VStr generic_error) |})
  /\ (forall v, data r = DValue v -> v <> VUndefined -> v <> VNull ->
        predict_stats post playerData
        = Ok {| code := 500; payload := Failure (VStr generic_error) |}).
Proof.
  rewrite predict_stats_service_error. unfold on_error. rewrite answered.
  split.
  - intros o ->. simpl. unfold js_or.
    destruct (truthy (prop o "error")); reflexivity.
  - intros v -> Hu Hn. destruct v; try reflexivity; congruence.
Qed.

(** X8.  When the failed call carries a response whose body is the JSON
    value null, reading its [error] entry throws inside the catch clause:
    the handler rejects instead of writing its error answer. *)
Theorem error_body_null_unanswered :
  data r = DValue VNull ->
  exists thrown, predict_stats post playerData = Throw thrown.
Proof.
  rewrite predict_stats_service_error. unfold on_error. rewrite answered.
  intros ->. eexists. reflexivity.
Qed.

End ServiceErrors.

Lemma service_error_forwarded_witness :
  predict_stats (fun _ => Throw (service_says (VStr "Missing feature: age")))
    (of_raw six_stats)
  = Ok {| code := 500; payload := Failure (VStr "Missing feature: age") |}.
Proof.
  destruct (service_error_forwarded
              (fun _ => Throw (service_says (VStr "Missing feature: age")))
              (of_raw six_stats) six_stats_mapped
              (service_says (VStr "Missing feature: age"))
              {| status := 400;
                 data := DObject
                           {[ "error" := VStr "Missing feature: age" ]} |})
    as [H _].
  - vm_compute. reflexivity.
  - reflexivity.
  - reflexivity.
  - rewrite (H _ eq_refl). reflexivity.
Defined.

Lemma error_body_null_unanswered_witness :
  exists thrown,
    predict_stats (fun _ => Throw null_error_body) (of_raw six_stats)
    = Throw thrown.
Proof.
  apply (error_body_null_unanswered _ (of_raw six_stats) six_stats_mapped
           null_error_body {| status := 500; data := DValue VNull |}).
  - vm_compute. reflexivity.
  - reflexivity.
  - reflexivity.
  - reflexivity.
Defined.

(** X9.  A service answer whose body is not an object (missing, null, a
    text, a number, an array) still gives a 200 answer: prediction,
    message and overall_calculated are null and there are no reasons. *)
Theorem bodiless_answer_all_null (m : Mapped) (st : Z) (v : value) :
  on_success m {| status := st; data := DValue v |}
  = Ok {| code := 200; payload := Success VNull VNull [] VNull |}.
Proof. rewrite on_success_eq. reflexivity. Qed.

(** X10.  A prediction that the service sends is relayed unchanged even
    when it is falsy (0, false, the empty text, null) and hides the legacy
    response field; an overall_calculated that the service sends is
    relayed unchanged even when it is falsy.  Each holds whatever else
    the answer carries. *)
Theorem present_fields_relayed (m : Mapped) (st : Z)
    (o : gmap string value) (v : value) :
  defined v = true ->
  (o !! "prediction" = Some v ->
   exists msg oc,
     on_success m {| status := st; data := DObject o |}
     = Ok {| code := 200;
             payload := Success v msg (compute_reasons v m) oc |})
  /\ (o !! "overall_calculated" = Some v ->
      exists p msg,
        on_success m {| status := st; data := DObject o |}
        = Ok {| code := 200;
                payload := Success p msg (compute_reasons p m) v |}).
Proof.
  intros Dv. split; intros Hv; rewrite on_success_eq; cbv zeta; simpl data.
  - assert (read (DObject o) "prediction" = v) as ->
      by (unfold read, prop; now rewrite Hv).
    rewrite Dv. do 2 eexists. reflexivity.
  - assert (read (DObject o) "overall_calculated" = v) as ->
      by (unfold read, prop; now rewrite Hv).
    rewrite Dv. do 2 eexists. reflexivity.
Qed.

Lemma present_fields_relayed_witness :
  exists msg oc,
    on_success all_defaults usual_answer
    = Ok {| code := 200;
            payload := Success zero msg (compute_reasons zero all_defaults)
                         oc |}.
Proof.
  destruct (present_fields_relayed all_defaults 200
              (<["prediction" := zero]>
               {[ "message" := VStr "Player is Not Eligible to Play" ]})
              zero eq_refl) as [H _].
  apply H. vm_compute. reflexivity.
Defined.

(** ** The reasons, for every record *)

Lemma push_if_cases c r l l' :
  push_if c r l = Ok l' -> l' = l \/ l' = (l ++ [r])%list.
Proof.
  unfold push_if. destruct c as [[|]|e]; simpl; intros [= <-]; auto.
Qed.

Lemma sublist_push (l l' c : list string) r :
  sublist l c -> l' = l \/ l' = (l ++ [r])%list ->
  sublist l' (c ++ [r])%list.
Proof.
  intros Hs [-> | ->].
  - now apply sublist_inserts_r.
  - now apply sublist_app.
Qed.

(** Case analysis on the next guarded push of the block. *)
Ltac next_push E :=
  match goal with
  | |- context [push_if ?c ?r ?l] =>
      destruct (push_if c r l) eqn:E; simpl; [| discriminate];
      apply push_if_cases in E
  end.

(** A run of the block that returns leaves the fired catalog strings, or
    the fallback alone. *)
Lemma reasons_block_shape m rs :
  reasons_block zero m [] = Ok rs ->
  exists fs, sublist fs catalog
             /\ rs = match fs with [] => [fallback] | _ => fs end.
Proof.
  unfold reasons_block. change (is_zero zero) with true. cbv iota.
  next_push E1. next_push E2. next_push E3. next_push E4. next_push E5.
  next_push E6. next_push E7. next_push E8. next_push E9.
  intros [= <-].
  match goal with
  | |- context [Z.of_nat (length ?l)] => exists l; rename l into r9
  end.
  split.
  - pose proof (sublist_nil (A := string)) as S0.
    pose proof (sublist_push _ _ _ _ S0 E1) as S1.
    pose proof (sublist_push _ _ _ _ S1 E2) as S2.
    pose proof (sublist_push _ _ _ _ S2 E3) as S3.
    pose proof (sublist_push _ _ _ _ S3 E4) as S4.
    pose proof (sublist_push _ _ _ _ S4 E5) as S5.
    pose proof (sublist_push _ _ _ _ S5 E6) as S6.
    pose proof (sublist_push _ _ _ _ S6 E7) as S7.
    pose proof (sublist_push _ _ _ _ S7 E8) as S8.
    exact (sublist_push _ _ _ _ S8 E9).
  - destruct r9; reflexivity.
Qed.

Lemma is_zero_true p : is_zero p = true -> p = zero.
Proof.
  destruct p as [| | |[|z]| |]; simpl; try discriminate.
  destruct z; try discriminate. reflexivity.
Qed.

Lemma compute_reasons_other p m : is_zero p = false -> compute_reasons p m = [].
Proof.
  intros H. unfold compute_reasons, reasons_block. now rewrite H.
Qed.

Lemma catalog_NoDup : NoDup catalog.
Proof.
  unfold catalog. repeat (apply NoDup_cons; split);
    [ .. | apply NoDup_nil; exact I ];
    rewrite ?elem_of_cons, ?elem_of_nil; intuition discriminate.
Qed.

Lemma fallback_not_in_catalog : fallback ∉ catalog.
Proof.
  unfold catalog, fallback.
  rewrite ?elem_of_cons, ?elem_of_nil; intuition discriminate.
Qed.

(** X11.  For every prediction and every record (also one that makes the
    block fault), the reasons are catalog strings in catalog order without
    repetition, at most nine of them, or the fallback string; the fallback
    never comes with another reason. *)
Theorem reasons_from_catalog (p : value) (m : Mapped) :
  sublist (compute_reasons p m) (catalog ++ [fallback])%list
  /\ NoDup (compute_reasons p m)
  /\ (length (compute_reasons p m) <= 9)%nat
  /\ (fallback ∈ compute_reasons p m -> compute_reasons p m = [fallback]).
Proof.
  assert (compute_reasons p m = []
          \/ exists fs, sublist fs catalog
               /\ compute_reasons p m
                  = match fs with [] => [fallback] | _ => fs end) as [-> | H].
  { destruct (is_zero p) eqn:Hz.
    - apply is_zero_true in Hz as ->. unfold compute_reasons.
      destruct (reasons_block zero m []) as [rs|e] eqn:E; [| now left].
      right. simpl. now apply (reasons_block_shape m).
    - left. now apply compute_reasons_other. }
  - repeat split.
    + apply sublist_nil_l.
    + apply NoDup_nil. exact I.
    + simpl. lia.
    + intros H. now apply elem_of_nil in H.
  - destruct H as (fs & Hs & ->). destruct fs as [|f fs].
    + repeat split.
      * apply sublist_inserts_l. reflexivity.
      * apply NoDup_singleton.
      * simpl. lia.
    + repeat split.
      * now apply sublist_inserts_r.
      * eapply sublist_NoDup; [apply catalog_NoDup | exact Hs].
      * apply sublist_length in Hs. exact Hs.
      * intros Hin. destruct fallback_not_in_catalog.
        eapply elem_of_sublist; [exact Hin | exact Hs].
Qed.

Lemma reasons_from_catalog_witness :
  compute_reasons zero strong_everywhere = [fallback].
Proof.
  destruct (reasons_from_catalog zero strong_everywhere) as (_ & _ & _ & H).
  apply H. change (compute_reasons zero strong_everywhere) with [fallback].
  apply list_elem_of_here.
Defined.

(** X12.  The reasons are non-empty exactly when the prediction is the
    number 0 and the block ran to its end: any other prediction (1, null,
    the text "0") and any fault leave them empty. *)
Theorem reasons_nonempty_iff (p : value) (m : Mapped) :
  compute_reasons p m <> []
  <-> is_zero p = true /\ exists rs, reasons_block p m [] = Ok rs.
Proof.
  split.
  - intros Hne. destruct (is_zero p) eqn:Hz.
    + split; [reflexivity |]. unfold compute_reasons in Hne.
      destruct (reasons_block p m []) as [rs|e]; [now exists rs |].
      now destruct Hne.
    + destruct Hne. now apply compute_reasons_other.
  - intros (Hz & rs & Hr). apply is_zero_true in Hz as ->.
    unfold compute_reasons. rewrite Hr. simpl.
    apply reasons_block_shape in Hr as (fs & _ & ->).
    destruct fs; discriminate.
Qed.

Lemma reasons_nonempty_iff_witness :
  compute_reasons zero strong_everywhere <> []
  /\ ~ (compute_reasons (VStr "0") weak_everywhere <> []).
Proof.
  split.
  - apply (reasons_nonempty_iff zero strong_everywhere).
    split; [reflexivity |]. eexists. vm_compute. reflexivity.
  - intros H. apply (reasons_nonempty_iff (VStr "0") weak_everywhere) in H.
    destruct H as [H _]. discriminate.
Defined.

(** ** A RawInput from request to answer *)

Lemma or_default_number raw k d :
  numeric_or_absent raw k = true -> is_number d = true ->
  is_number (or_default (of_raw raw) k d) = true.
Proof.
  unfold or_default, numeric_or_absent. rewrite prop_of_raw.
  destruct (raw !! k) as [[z|s]|]; simpl; congruence.
Qed.

(** A numeric request gives numbers to every compared field. *)
Lemma numeric_request_typed raw m :
  numeric_request raw ->
  normalize (of_raw raw) = Ok m ->
  Forall (fun v => is_number v = true) (compared m).
Proof.
  intros [Hk _] Hm. unfold numeric_keys in Hk. simpl forallb in Hk.
  rewrite !andb_true_iff in Hk.
  destruct Hk as (Ka & Kpo & Ks & Kdr & Kp & Ksh & Kpa & Kd & Kph & _).
  pose proof (normalize_potential _ _ Hm) as Hp.
  destruct (normalize_fields _ _ Hm)
    as (E1 & _ & E3 & _ & _ & E6 & E7 & E8 & E9 & E10 & _).
  assert (is_number (potential m) = true) as Hpo.
  { destruct (defined (prop (of_raw raw) "potential")) eqn:Ed.
    - injection Hp as <-. revert Ed. unfold numeric_or_absent in Kpo.
      rewrite prop_of_raw.
      destruct (raw !! "potential") as [[z|s]|]; simpl; congruence.
    - rewrite potential_estimate_numeric in Hp.
      + now injection Hp as <-.
      + unfold numeric_contributors, contributors. simpl forallb.
        now rewrite Kp, Ksh, Kpa, Kdr, Kd, Kph. }
  unfold compared.
  repeat (apply Forall_cons; split); try (now apply Forall_nil);
    try exact Hpo;
    first [ rewrite E1 | rewrite E3 | rewrite E6 | rewrite E7 | rewrite E8
          | rewrite E9 | rewrite E10 ];
    repeat (apply or_default_number; try assumption); reflexivity.
Qed.

Lemma explainIneligibility_nonempty m : explainIneligibility m <> [].
Proof. unfold explainIneligibility. destruct (fired m); discriminate. Qed.

(** X13.  For a RawInput, texts included, the reasons block cannot fault:
    whenever the outbound call succeeds the answer has status 200 and its
    reasons are non-empty exactly when the relayed prediction is 0.  When
    the RawInput gives numbers (or nothing) under the numeric names, with
    contributors of magnitude at most 2^48, the reasons are the specified
    list. *)
Theorem raw_request_answer (post : Mapped -> Res axios_response)
    (raw : gmap string scalar) (m : Mapped) (resp : axios_response) :
  normalize (of_raw raw) = Ok m ->
  post m = Ok resp ->
  exists p msg oc rs,
    predict_stats post (of_raw raw)
    = Ok {| code := 200; payload := Success p msg rs oc |}
    /\ (rs <> [] <-> is_zero p = true)
    /\ (numeric_request raw ->
        features_typed m
        /\ rs = if is_zero p then explainIneligibility m else []).
Proof.
  intros Hn Hp.
  rewrite (predict_stats_success post (of_raw raw) m Hn resp Hp).
  rewrite on_success_eq. cbv zeta.
  set (p := if defined _ then _ else _).
  assert (features_primitive m) as Hprim.
  { destruct (normalize_of_raw raw) as (m' & Hm' & Hs).
    rewrite Hn in Hm'. injection Hm' as <-.
    unfold features_primitive. eapply Forall_impl; [exact Hs |].
    intros kv. apply is_scalar_primitive. }
  exists p. do 2 eexists. exists (compute_reasons p m).
  split; [reflexivity |].
  destruct (is_zero p) eqn:Hz.
  - apply is_zero_true in Hz. rewrite Hz.
    rewrite (compute_reasons_primitive m Hprim).
    split.
    + split; [reflexivity | intros _; apply explainIneligibility_nonempty].
    + intros Hq. split; [| reflexivity].
      split; [exact Hprim | now apply (numeric_request_typed raw)].
  - rewrite (compute_reasons_other p m Hz).
    split.
    + split; [intros H; now destruct H | discriminate].
    + intros Hq. split; [| reflexivity].
      split; [exact Hprim | now apply (numeric_request_typed raw)].
Qed.

Lemma raw_request_answer_witness :
  exists p msg oc rs,
    predict_stats (fun _ => Ok says_ineligible) (of_raw six_stats)
    = Ok {| code := 200; payload := Success p msg rs oc |}
    /\ (rs <> [] <-> is_zero p = true)
    /\ (numeric_request six_stats ->
        features_typed six_stats_mapped
        /\ rs = if is_zero p
                then explainIneligibility six_stats_mapped else []).
Proof.
  apply (raw_request_answer (fun _ => Ok says_ineligible) six_stats
           six_stats_mapped says_ineligible).
  - vm_compute. reflexivity.
  - reflexivity.
Defined.

Example six_stats_numeric_request : numeric_request six_stats.
Proof. split; reflexivity. Qed.

(** ** The first version of the handler *)

Section LegacyAnswer.

(** Both versions receive the same answer from the prediction service. *)
Variable post_v1 : gmap string value -> Res axios_response.
Variable post : Mapped -> Res axios_response.
Variable playerData : gmap string value.
Variable mapped : Mapped.
Variable resp : axios_response.
Hypothesis normalised : normalize playerData = Ok mapped.
Hypothesis answered_v1 : post_v1 playerData = Ok resp.
Hypothesis answered : post mapped = Ok resp.

(** X14.  On a service answer in the old shape (a [response] entry and no
    [prediction]) the first handler relays the entry as it is, and the
    current handler relays the same value when it is truthy but null when
    it is falsy: a legacy 0 reached the client as 0 and now reaches it as
    null. *)
Theorem legacy_answer_both_versions (o : gmap string value) :
  data resp = DObject o ->
  o !! "prediction" = None ->
  predict_stats_v1 post_v1 playerData
  = Ok {| reply_code := 200;
          reply_body := {[ "prediction" := prop o "response" ]} |}
  /\ exists msg oc,
       predict_stats post playerData
       = Ok {| code := 200;
               payload :=
                 Success (if truthy (prop o "response")
                          then prop o "response" else VNull)
                   msg
                   (compute_reasons (if truthy (prop o "response")
                                     then prop o "response" else VNull)
                      mapped)
                   oc |}.
Proof.
  intros Hd Hp. split.
  - unfold predict_stats_v1. rewrite answered_v1, bind_Ok, Hd. reflexivity.
  - rewrite (predict_stats_success post playerData mapped normalised resp
               answered).
    rewrite on_success_eq, Hd. cbv zeta.
    assert (read (DObject o) "prediction" = VUndefined) as ->
      by (unfold read, prop; now rewrite Hp).
    do 2 eexists. reflexivity.
Qed.

(** X15.  On a service answer whose body is the JSON value null the first
    handler faults on reading it and answers 500 with the generic text,
    while the current handler answers 200 with null fields and no reasons.
    On an answer without a body, which arrives as the empty text, both
    answer 200: the first with an undefined prediction, the current one
    with null fields. *)
Theorem null_body_both_versions :
  (data resp = DValue VNull ->
   predict_stats_v1 post_v1 playerData
   = Ok {| reply_code := 500;
           reply_body := {[ "error" := VStr generic_error ]} |}
   /\ predict_stats post playerData
      = Ok {| code := 200; payload := Success VNull VNull [] VNull |})
  /\ (data resp = DValue (VStr EmptyString) ->
      predict_stats_v1 post_v1 playerData
      = Ok {| reply_code := 200;
              reply_body := {[ "prediction" := VUndefined ]} |}
      /\ predict_stats post playerData
         = Ok {| code := 200; payload := Success VNull VNull [] VNull |}).
Proof.
  rewrite (predict_stats_success post playerData mapped normalised resp
             answered).
  rewrite on_success_eq. unfold predict_stats_v1.
  rewrite answered_v1, bind_Ok.
  split; intros ->; split; reflexivity.
Qed.

End LegacyAnswer.

Lemma legacy_answer_both_versions_witness :
  predict_stats_v1 (fun _ => Ok (legacy_answer zero)) (of_raw six_stats)
  = Ok {| reply_code := 200; reply_body := {[ "prediction" := zero ]} |}
  /\ exists msg oc,
       predict_stats (fun _ => Ok (legacy_answer zero)) (of_raw six_stats)
       = Ok {| code := 200; payload := Success VNull msg [] oc |}.
Proof.
  assert (normalize (of_raw six_stats) = Ok six_stats_mapped) as Hn
    by (vm_compute; reflexivity).
  exact (legacy_answer_both_versions (fun _ => Ok (legacy_answer zero))
           (fun _ => Ok (legacy_answer zero)) (of_raw six_stats)
           six_stats_mapped (legacy_answer zero) Hn eq_refl eq_refl
           {[ "response" := zero ]} eq_refl eq_refl).
Defined.

Lemma null_body_both_versions_witness :
  predict_stats_v1 (fun _ => Ok null_body) (of_raw six_stats)
  = Ok {| reply_code := 500;
          reply_body := {[ "error" := VStr generic_error ]} |}
  /\ predict_stats_v1 (fun _ => Ok empty_body) (of_raw six_stats)
     = Ok {| reply_code := 200;
             reply_body := {[ "prediction" := VUndefined ]} |}.
Proof.
  assert (normalize (of_raw six_stats) = Ok six_stats_mapped) as Hn
    by (vm_compute; reflexivity).
  split.
  - destruct (null_body_both_versions (fun _ => Ok null_body)
                (fun _ => Ok null_body) (of_raw six_stats) six_stats_mapped
                null_body Hn eq_refl eq_refl) as [H _].
    exact (proj1 (H eq_refl)).
  - destruct (null_body_both_versions (fun _ => Ok empty_body)
                (fun _ => Ok empty_body) (of_raw six_stats) six_stats_mapped
                empty_body Hn eq_refl eq_refl) as [_ H].
    exact (proj1 (H eq_refl)).
Defined.

(** ** The form scripts *)

Example collect_sample_form :
  collect sample_form
  = <["pace" := VNum (Int 80)]> (<["dribbling" := VStr "50"]>
    {[ "body_type" := VStr "Lean" ]}).
Proof. vm_compute. reflexivity. Qed.

Lemma assign_lookup playerData key v k :
  assign playerData key v !! k
  = if String.eqb key "__proto__" then playerData !! k
    else if decide (key = k) then Some v else playerData !! k.
Proof.
  unfold assign. destruct (String.eqb key "__proto__"); [reflexivity |].
  apply lookup_insert.
Qed.

Lemma assign_well_collected playerData key v :
  well_collected key v ->
  map_Forall well_collected playerData ->
  map_Forall well_collected (assign playerData key v).
Proof.
  intros Hv Hm. unfold assign.
  destruct (String.eqb key "__proto__"); [exact Hm |].
  now apply map_Forall_insert_2.
Qed.

Lemma collect_step_well_collected playerData entry :
  map_Forall well_collected playerData ->
  map_Forall well_collected (collect_step playerData entry).
Proof.
  intros Hm. destruct entry as [key value]. unfold collect_step.
  destruct (blank value) eqn:Eb; [exact Hm |].
  destruct (is_numeric_field key) eqn:En.
  - destruct (string_to_number value) as [|z]; [exact Hm |].
    apply assign_well_collected; [| exact Hm].
    unfold well_collected. rewrite En. now exists z.
  - apply assign_well_collected; [| exact Hm].
    unfold well_collected. rewrite En. now exists value.
Qed.

Lemma fold_collect_well_collected entries playerData :
  map_Forall well_collected playerData ->
  map_Forall well_collected (fold_left collect_step entries playerData).
Proof.
  revert playerData. induction entries as [|entry entries IH]; intros pd Hm.
  - exact Hm.
  - simpl. apply IH. now apply collect_step_well_collected.
Qed.

(** X16.  Whatever is typed into the form, the later scripts put under a
    numeric field only a number, never a text, and under any other name
    (dribbling among them) only the text as typed, which is then not
    blank. *)
Theorem collect_well_typed (entries : list (string * string)) (k : string)
    (v : value) :
  collect entries !! k = Some v -> well_collected k v.
Proof.
  intros H.
  exact (fold_collect_well_collected entries ∅ (map_Forall_empty _) k v H).
Qed.

Lemma collect_well_typed_witness :
  well_collected "dribbling" (VStr "50")
  /\ well_collected "pace" (VNum (Int 80)).
Proof.
  split.
  - apply (collect_well_typed sample_form). vm_compute. reflexivity.
  - apply (collect_well_typed sample_form). vm_compute. reflexivity.
Defined.

Lemma collect_step_passes playerData entry k :
  (fst entry = k -> blank (snd entry) = true) ->
  collect_step playerData entry !! k = playerData !! k.
Proof.
  destruct entry as [key value]. simpl. intros Hb. unfold collect_step.
  destruct (blank value) eqn:Eb; [reflexivity |].
  assert (key <> k) as Hne by (intros ->; now specialize (Hb eq_refl)).
  destruct (is_numeric_field key);
    [destruct (string_to_number value); [reflexivity |] |];
    rewrite assign_lookup;
    destruct (String.eqb key "__proto__"); try reflexivity;
    now destruct (decide (key = k)).
Qed.

Lemma fold_collect_passes entries playerData k :
  (forall value, (k, value) ∈ entries -> blank value = true) ->
  fold_left collect_step entries playerData !! k = playerData !! k.
Proof.
  revert playerData. induction entries as [|entry entries IH]; intros pd Hb.
  - reflexivity.
  - simpl. rewrite IH.
    + apply collect_step_passes. destruct entry as [key value]. simpl.
      intros ->. apply Hb. apply elem_of_cons. now left.
    + intros value Hin. apply Hb. apply elem_of_cons. now right.
Qed.

(** X17.  A name whose every entry in the form is blank (empty or white
    space only), or which has no entry, is left out of the request body by
    the later scripts. *)
Theorem blank_entries_omitted (entries : list (string * string))
    (k : string) :
  (forall value, (k, value) ∈ entries -> blank value = true) ->
  collect entries !! k = None.
Proof.
  intros Hb. unfold collect. rewrite (fold_collect_passes _ _ _ Hb).
  apply lookup_empty.
Qed.

Lemma blank_entries_omitted_witness :
  collect sample_form !! "age" = None.
Proof.
  apply (blank_entries_omitted sample_form "age").
  intros value Hin. unfold sample_form in Hin.
  repeat (apply elem_of_cons in Hin as [Hin | Hin];
          [first [discriminate Hin | injection Hin as ->; reflexivity] |]).
  now apply elem_of_nil in Hin.
Defined.

(** X18.  The last entry of a name that is not blank is the one the later
    scripts send, blank entries after it changing nothing: under a numeric
    field the integer it denotes, when it denotes one of magnitude at most
    2^53 (in any notation: 80, 8e1, 80.0, 0x50), under another name the
    text exactly as typed. *)
Theorem last_entry_sent (before after : list (string * string))
    (k value : string) :
  k <> "__proto__" ->
  blank value = false ->
  (forall value', (k, value') ∈ after -> blank value' = true) ->
  (is_numeric_field k = false ->
   collect (before ++ (k, value) :: after) !! k = Some (VStr value))
  /\ (forall z, is_numeric_field k = true ->
        string_to_number value = Int z ->
        collect (before ++ (k, value) :: after) !! k = Some (VNum (Int z))).
Proof.
  intros Hk Hb Ha.
  assert (String.eqb k "__proto__" = false) as Ek
    by now apply String.eqb_neq.
  unfold collect. rewrite fold_left_app. simpl fold_left.
  rewrite (fold_collect_passes _ _ _ Ha).
  unfold collect_step. rewrite Hb. split.
  - intros ->. rewrite assign_lookup, Ek. now destruct (decide (k = k)).
  - intros z -> ->. rewrite assign_lookup, Ek. now destruct (decide (k = k)).
Qed.

Example exponent_text_sent :
  collect [("pace", "8e1"); ("age", "0x1E"); ("physic", " 70.0 ")]
  = <["pace" := VNum (Int 80)]> (<["age" := VNum (Int 30)]>
    {[ "physic" := VNum (Int 70) ]}).
Proof. vm_compute. reflexivity. Qed.

Lemma last_entry_sent_witness :
  collect ([("pace", "70")] ++ ("pace", "80") :: [("pace", " ")]) !! "pace"
  = Some (VNum (Int 80)).
Proof.
  destruct (last_entry_sent [("pace", "70")] [("pace", " ")] "pace" "80")
    as [_ H].
  - discriminate.
  - reflexivity.
  - intros value' Hin. apply elem_of_cons in Hin as [Hin | Hin].
    + now injection Hin as ->.
    + now apply elem_of_nil in Hin.
  - apply H; reflexivity.
Defined.

(** ** From the form to the record *)

Lemma well_collected_scalar k v : well_collected k v -> is_scalar v = true.
Proof.
  unfold well_collected. destruct (is_numeric_field k).
  - now intros (z & ->).
  - now intros (s & -> & _).
Qed.

Lemma of_raw_raw_of (playerData : gmap string value) :
  map_Forall (fun _ v => is_scalar v = true) playerData ->
  of_raw (raw_of playerData) = playerData.
Proof.
  intros Hs. apply map_eq. intros k. unfold of_raw, raw_of.
  rewrite lookup_fmap, lookup_omap.
  destruct (playerData !! k) as [v|] eqn:E; [| reflexivity].
  specialize (Hs k v E). simpl in Hs.
  destruct v as [| | |[|z]|s|]; simpl in *; try discriminate; reflexivity.
Qed.

Lemma collect_is_raw entries :
  of_raw (raw_of (collect entries)) = collect entries.
Proof.
  apply of_raw_raw_of. intros k v Hk.
  apply (well_collected_scalar k).
  exact (fold_collect_well_collected entries ∅ (map_Forall_empty _) k v Hk).
Qed.

(** X19.  Whatever is typed into the form, the body built by the later
    scripts is normalised without a fault, every field of the record is a
    primitive value, and the reasons block does not fault on the record
    either, whatever the prediction. *)
Theorem form_request_normalises (form : list (string * string)) :
  exists m, normalize (collect form) = Ok m
            /\ Forall (fun kv => primitive (snd kv) = true) (entries m)
            /\ forall p, exists rs, reasons_block p m [] = Ok rs.
Proof.
  rewrite <- (collect_is_raw form).
  destruct (normalize_of_raw (raw_of (collect form))) as (m & Hm & Hs).
  assert (features_primitive m) as Hp.
  { unfold features_primitive. eapply Forall_impl; [exact Hs |].
    intros kv. apply is_scalar_primitive. }
  exists m. split; [exact Hm |]. split; [exact Hp |].
  intros p. destruct (is_zero p) eqn:Hz.
  - apply is_zero_true in Hz as ->. eexists.
    now apply reasons_block_primitive.
  - exists []. unfold reasons_block. now rewrite Hz.
Qed.

(** X20.  A field of the form left blank, when its rule is a constant,
    gets that constant in the record: 0 for age, pace, shooting, passing,
    defending and physic, "Unknown_Category" for work_rate and body_type,
    the empty text for player_traits. *)
Theorem blank_field_defaulted (entries : list (string * string))
    (f : field) :
  constant_default f = true ->
  (forall value, (name f, value) ∈ entries -> blank value = true) ->
  proj f <$> normalize (collect entries) = Ok (absent_rule f ∅).
Proof.
  intros Hc Hb. rewrite <- (collect_is_raw entries).
  rewrite absent_rule_applied.
  - destruct f; try discriminate; reflexivity.
  - unfold raw_of. rewrite lookup_omap. unfold collect.
    rewrite (fold_collect_passes _ _ _ Hb). reflexivity.
  - intros ->. discriminate.
Qed.

Lemma blank_field_defaulted_witness :
  proj Age <$> normalize (collect sample_form) = Ok zero
  /\ proj Work_rate <$> normalize (collect sample_form)
     = Ok (VStr "Unknown_Category").
Proof.
  split.
  - apply (blank_field_defaulted sample_form Age); [reflexivity |].
    intros value Hin. unfold sample_form in Hin.
    repeat (apply elem_of_cons in Hin as [Hin | Hin];
            [first [discriminate Hin | injection Hin as ->; reflexivity] |]).
    now apply elem_of_nil in Hin.
  - apply (blank_field_defaulted sample_form Work_rate); [reflexivity |].
    intros value Hin. unfold sample_form in Hin.
    repeat (apply elem_of_cons in Hin as [Hin | Hin];
            [first [discriminate Hin | injection Hin as ->; reflexivity] |]).
    now apply elem_of_nil in Hin.
Defined.

(** ** The first form script *)

Lemma blank_is_zero value :
  blank value = true -> string_to_number value = Int 0.
Proof.
  unfold blank, string_to_number, parse_number. intros H.
  apply String.eqb_eq in H. now rewrite H.
Qed.

Lemma collect_step_v1_other playerData entry k :
  fst entry <> k ->
  collect_step_v1 playerData entry !! k = playerData !! k.
Proof.
  destruct entry as [key value]. simpl. intros Hne. unfold collect_step_v1.
  rewrite assign_lookup. destruct (String.eqb key "__proto__"); [reflexivity |].
  now destruct (decide (key = k)).
Qed.

Lemma fold_v1_other entries playerData k :
  Forall (fun entry => fst entry <> k) entries ->
  fold_left collect_step_v1 entries playerData !! k = playerData !! k.
Proof.
  revert playerData. induction entries as [|entry entries IH]; intros pd Hf.
  - reflexivity.
  - apply Forall_cons in Hf as [Hh Ht]. simpl. rewrite (IH _ Ht).
    now apply collect_step_v1_other.
Qed.

Lemma collect_step_v1_keeps playerData entry k :
  is_Some (playerData !! k) ->
  is_Some (collect_step_v1 playerData entry !! k).
Proof.
  destruct entry as [key value]. intros Hs. unfold collect_step_v1.
  rewrite assign_lookup. destruct (String.eqb key "__proto__"); [exact Hs |].
  destruct (decide (key = k)); [eexists; reflexivity | exact Hs].
Qed.

Lemma fold_v1_keeps entries playerData k :
  is_Some (playerData !! k) ->
  is_Some (fold_left collect_step_v1 entries playerData !! k).
Proof.
  revert playerData. induction entries as [|entry entries IH]; intros pd Hs.
  - exact Hs.
  - simpl. apply IH. now apply collect_step_v1_keeps.
Qed.

(** X21.  The first script leaves nothing out: every name that has an
    entry in the form, whatever was typed, has an entry in the request
    body.  (The later scripts drop blank entries.) *)
Theorem v1_sends_every_entry (entries : list (string * string))
    (k value : string) :
  k <> "__proto__" ->
  (k, value) ∈ entries ->
  is_Some (collect_v1 entries !! k).
Proof.
  intros Hk Hin. apply list_elem_of_split in Hin as (before & after & ->).
  unfold collect_v1. rewrite fold_left_app. simpl fold_left.
  apply fold_v1_keeps. unfold collect_step_v1.
  rewrite assign_lookup.
  assert (String.eqb k "__proto__" = false) as -> by now apply String.eqb_neq.
  destruct (decide (k = k)); [eexists; reflexivity | congruence].
Qed.

Lemma v1_sends_every_entry_witness :
  is_Some (collect_v1 sample_form !! "age").
Proof.
  apply (v1_sends_every_entry sample_form "age" " ").
  - discriminate.
  - unfold sample_form. apply elem_of_cons. now left.
Defined.

(** X22.  In the first script a field left empty is sent as the empty
    text, and a field holding only white space is sent as the number 0. *)
Theorem v1_blank_values (before after : list (string * string))
    (k value : string) :
  k <> "__proto__" ->
  Forall (fun entry => fst entry <> k) after ->
  blank value = true ->
  collect_v1 (before ++ (k, value) :: after) !! k
  = Some (if String.eqb value EmptyString then VStr EmptyString
          else VNum (Int 0)).
Proof.
  intros Hk Ha Hb.
  assert (String.eqb k "__proto__" = false) as Ek by now apply String.eqb_neq.
  unfold collect_v1. rewrite fold_left_app. simpl fold_left.
  rewrite (fold_v1_other _ _ _ Ha). unfold collect_step_v1.
  rewrite assign_lookup, Ek, (blank_is_zero _ Hb).
  destruct (decide (k = k)); [| congruence].
  destruct (String.eqb_spec value EmptyString) as [-> |]; reflexivity.
Qed.

Lemma v1_blank_values_witness :
  collect_v1 ([] ++ ("age", " ") :: [("pace", EmptyString)]) !! "age"
  = Some (VNum (Int 0))
  /\ collect_v1 ([("age", " ")] ++ ("pace", EmptyString) :: []) !! "pace"
     = Some (VStr EmptyString).
Proof.
  split.
  - apply (v1_blank_values [] [("pace", EmptyString)] "age" " ").
    + discriminate.
    + apply Forall_cons. split; [discriminate | now apply Forall_nil].
    + reflexivity.
  - apply (v1_blank_values [("age", " ")] [] "pace" EmptyString).
    + discriminate.
    + now apply Forall_nil.
    + reflexivity.
Defined.
